(** * ecommerce-mini: the product card and the home (catalog) page

    A shallow embedding of [src/components/ProductCard.tsx] and of the home
    page component ([HomePage]), with the properties of the product-card
    rendering contract and of the catalog loading logic.

    Conventions of the embedding:
    - a JS [number] that the storefront treats as an integer ([id], [stock],
      [price]) is a [Z];
    - a value that can be [null] or [undefined] is an [option];
    - a React element tree is a [vnode]; a child that React renders as nothing
      ([false], [null]) is [Nothing];
    - callbacks supplied by the parent are opaque: a callback is a reference
      and what is observed of it is the list of its invocations;
    - code that can throw or reject returns a [completion]. *)

From Stdlib Require Import ZArith String Ascii List Bool Lia DecimalString.
From Stdlib Require DecimalPos DecimalZ.
Import ListNotations.

Open Scope string_scope.
Open Scope list_scope.
Open Scope Z_scope.

(* ------------------------------------------------------------------ *)
(** ** The fragment of JavaScript the two components use *)

Module JS.

(** The outcome of evaluating a piece of code: a value, or a thrown
    exception (for an async function: a rejected promise). *)
Inductive completion (A : Type) : Type :=
| Normal (a : A)
| Throw (e : string).
Arguments Normal {A} a.
Arguments Throw {A} e.

(** Code that reads and writes a store [S] and may throw. *)
Definition M (S A : Type) : Type := S -> completion A * S.

Definition ret {S A} (a : A) : M S A := fun s => (Normal a, s).

Definition bind {S A B} (m : M S A) (k : A -> M S B) : M S B :=
  fun s =>
    match m s with
    | (Normal a, s') => k a s'
    | (Throw e, s') => (Throw e, s')
    end.

Definition throw {S A} (e : string) : M S A := fun s => (Throw e, s).

Definition modify {S} (f : S -> S) : M S unit := fun s => (Normal tt, f s).

(** [o.f] for an [o] that may be absent: reading a property of [null] or
    [undefined] throws a TypeError. *)
Definition deref {A} (o : option A) : completion A :=
  match o with
  | Some a => Normal a
  | None => Throw "TypeError"
  end.

(** [o?.f]: [undefined] when [o] is absent. *)
Definition opt_chain {A B} (o : option A) (f : A -> B) : option B :=
  match o with
  | Some a => Some (f a)
  | None => None
  end.

(** [o ?? d]. *)
Definition nullish {A} (o : option A) (d : A) : A :=
  match o with
  | Some a => a
  | None => d
  end.

(** A destructured prop with a default, [{ x = d }]: the default applies
    when the prop is omitted. *)
Definition default_to {A} (o : option A) (d : A) : A :=
  match o with
  | Some a => a
  | None => d
  end.

(** [!o] for an object reference: true exactly when [o] is absent. *)
Definition not_ {A} (o : option A) : bool :=
  match o with
  | Some _ => false
  | None => true
  end.

(** *** Number to string

    The text of a number inside a template literal is ECMAScript's
    Number::toString. A [Z] stands for the number (the double) nearest to
    it, which is the integer itself up to 2^53 in magnitude. *)

(** Plain decimal digits, with a minus sign for a negative integer. *)
Definition decimal (n : Z) : string :=
  NilZero.string_of_int (Z.to_int n).

(** The double nearest to the positive integer [w], ties to the even
    significand. A double of that size is an integer [m * 2^e] with
    [m < 2^53]. *)
Definition round53 (w : Z) : Z :=
  let e := Z.log2 w - 52 in
  if e <=? 0 then w
  else
    let m := w / 2 ^ e in
    let r := w mod 2 ^ e in
    let half := 2 ^ (e - 1) in
    let m' := if r <? half then m
              else if half <? r then m + 1
              else if Z.even m then m else m + 1 in
    m' * 2 ^ e.

Definition digits (c : Z) : Z := Z.of_nat (String.length (decimal c)).

(** The integer [s * 10^(n-k)] with the fewest digits [k] in [s] whose
    nearest double is [v]; among those with [k] digits, the one closest to
    [v], and the even [s] when two are as close. [nd] is the number of
    digits of [v]; [k] goes up from 1 and succeeds at [nd] at the latest. *)
Fixpoint shortest (fuel : nat) (k nd v : Z) : Z :=
  match fuel with
  | O => v
  | S fuel' =>
      let t := 10 ^ (nd - k) in
      let lo := (v / t) * t in
      let hi := lo + t in
      let ok_lo := round53 lo =? v in
      let ok_hi := round53 hi =? v in
      if ok_lo && ok_hi
      then if v - lo <? hi - v then lo
           else if hi - v <? v - lo then hi
           else if Z.even (v / t) then lo else hi
      else if ok_lo then lo
      else if ok_hi then hi
      else shortest fuel' (k + 1) nd v
  end.

(** [s] without its trailing zeros. *)
Fixpoint strip_zeros (s : string) : string :=
  match s with
  | EmptyString => EmptyString
  | String c rest =>
      match strip_zeros rest with
      | EmptyString =>
          if Ascii.eqb c "0"%char then EmptyString else String c EmptyString
      | rest' => String c rest'
      end
  end.

(** [d.ddde+x], or [de+x] for a single digit. *)
Definition exponent_form (c : Z) : string :=
  match strip_zeros (decimal c) with
  | EmptyString => "0"
  | String d EmptyString => String d ("e+" ++ decimal (digits c - 1))
  | String d rest =>
      String d ("." ++ rest ++ "e+" ++ decimal (digits c - 1))
  end.

(** The text of a positive double [v] of 2^53 or more: its shortest digits,
    padded with zeros up to 21 digits and in exponent form beyond;
    "Infinity" from 2^1024 on. *)
Definition print_double (v : Z) : string :=
  if 2 ^ 1024 <=? v then "Infinity"
  else
    let c := shortest (Z.to_nat (digits v)) 1 (digits v) v in
    if digits c <=? 21 then decimal c else exponent_form c.

(** The text of an integer inside a template literal: its decimal digits
    when its magnitude is below 2^53, and the text of the nearest double
    otherwise (for instance "9223372036854776000" for 2^63 and "1e+21" for
    10^21). *)
Definition Number_toString (n : Z) : string :=
  if Z.abs n <? 2 ^ 53 then decimal n
  else (if n <? 0 then "-" else "") ++ print_double (round53 (Z.abs n)).

(** A promise once it has settled. *)
Inductive settled (A : Type) : Type :=
| Fulfilled (a : A)
| Rejected (reason : string).
Arguments Fulfilled {A} a.
Arguments Rejected {A} reason.

(** [await p] inside an async function. *)
Definition await {S A} (p : settled A) : M S A :=
  match p with
  | Fulfilled a => ret a
  | Rejected r => throw r
  end.

End JS.

Import JS.

Declare Scope js_scope.
Delimit Scope js_scope with js.
Notation "x <- m ;; k" := (bind m (fun x => k))
  (at level 61, m at next level, right associativity) : js_scope.
Notation "m ;; k" := (bind m (fun _ => k))
  (at level 61, right associativity) : js_scope.

(* ------------------------------------------------------------------ *)
(** ** Data model *)

Module Category.
Record t : Type := { id : Z; name : string }.
End Category.

(** [createdAt] and [updatedAt] are [string | Date]. *)
Inductive timestamp : Type :=
| DateString (s : string)
| DateValue (ms : Z).

Module Product.
Record t : Type := {
  id : Z;
  name : string;
  category : option Category.t;
  description : string;
  price : Z;
  stock : Z;
  imageUrl : string;
  createdAt : timestamp;
  updatedAt : timestamp
}.
End Product.

(** A callback prop: a function reference owned by the parent. *)
Definition callback : Type := nat.

(** What a callback is called with. *)
Inductive value : Type :=
| VNum (n : Z)
| VEvent.

Inductive invocation : Type :=
| Invoke (f : callback) (args : list value).

Record ProductCardProps : Type := {
  product : option Product.t;
  isLiked : option bool;
  onLikeToggle : option callback;
  viewMode : option string;
  onQuickView : option callback
}.

(* ------------------------------------------------------------------ *)
(** ** Element trees *)

(** The functions the cards attach to elements. *)
Inductive handler : Type :=
| PropCallback (cb : option callback)
    (** a callback prop passed as it is, [onClick={onLikeToggle}] *)
| HandleQuickView (onQuickView : option callback) (productId : Z)
    (** the closure [handleQuickView] over [onQuickView] and [product.id] *)
| SetImageLoadingFalse.
    (** [() => setImageLoading(false)] *)

Inductive attr : Type :=
| className (s : string)
| href (s : string)
| src (s : string)
| alt (s : string)
| fill
| title (s : string)
| disabled (b : bool)
| onClick (h : handler)
| onLoad (h : handler)
| layout (s : string)
| isLikedAttr (b : bool).

#[local] Unset Elimination Schemes.
Inductive vnode : Type :=
| Nothing
| Text (s : string)
| LocaleNumber (n : Z)
    (** the text of [n.toLocaleString()], which the host's locale decides *)
| Elem (tag : string) (attrs : list attr) (children : list vnode)
| CardElement (key : Z) (props : ProductCardProps).
    (** [<ProductCard key=... {...props} />], not yet rendered *)
#[local] Set Elimination Schemes.

(** [cond && node] as a JSX child. *)
Definition when (cond : bool) (node : vnode) : vnode :=
  if cond then node else Nothing.

(* ------------------------------------------------------------------ *)
(** ** ProductCard *)

(** [const isOutOfStock = product.stock <= 0]. *)
Definition isOutOfStock (product : Product.t) : bool :=
  Product.stock product <=? 0.

(** [const isLowStock = product.stock > 0 && product.stock <= 5]. *)
Definition isLowStock (product : Product.t) : bool :=
  (Product.stock product >? 0) && (Product.stock product <=? 5).

(** The list branch, [if (viewMode === 'list') return (...)]. The arguments
    are the variables of [ProductCard] the JSX mentions. *)
Definition list_view (product : Product.t) (isLiked : bool)
    (onLikeToggle : option callback) (imageLoading : bool)
    (isOutOfStock isLowStock : bool) (handleQuickView : handler) : vnode :=
  Elem "div"
    [className "bg-white rounded-lg shadow-sm hover:shadow-md transition-shadow duration-200 p-6"]
    [Elem "div" [className "flex gap-6"]
      [ (* Image *)
        Elem "Link"
          [href ("/shop/product/" ++ Number_toString (Product.id product));
           className "relative w-32 h-32 bg-gray-200 rounded-lg overflow-hidden flex-shrink-0"]
          [when imageLoading
             (Elem "div" [className "absolute inset-0 flex items-center justify-center"]
                [Elem "div"
                   [className "animate-spin rounded-full h-6 w-6 border-b-2 border-blue-600"]
                   []]);
           Elem "Image"
             [src (Product.imageUrl product);
              alt (Product.name product);
              fill;
              className ("object-cover transition-opacity duration-200 "
                         ++ (if imageLoading then "opacity-0" else "opacity-100"));
              onLoad SetImageLoadingFalse]
             [];
           when isOutOfStock
             (Elem "div"
                [className "absolute inset-0 bg-black bg-opacity-50 flex items-center justify-center"]
                [Elem "span" [className "text-white text-sm font-medium"]
                   [Text "Out of Stock"]])];
        (* Info *)
        Elem "div" [className "flex-grow"]
          [Elem "div" [className "flex justify-between items-start mb-2"]
             [Elem "Link" [href ("/shop/product/" ++ Number_toString (Product.id product))]
                [Elem "h3"
                   [className "font-semibold text-lg text-gray-800 hover:text-blue-600 transition-colors"]
                   [Text (Product.name product)]];
              Elem "button" [onClick (PropCallback onLikeToggle); className "p-1"]
                [Elem "LikeButton" [isLikedAttr isLiked] []]];
           Elem "p" [className "text-sm text-gray-500 mb-2"]
             [Text (nullish (opt_chain (Product.category product) Category.name)
                            "Ангилалгүй")];
           Elem "p" [className "text-gray-600 text-sm mb-4 line-clamp-2"]
             [Text (Product.description product)];
           Elem "div" [className "flex items-center justify-between"]
             [Elem "div" [className "flex items-center gap-4"]
                [Elem "span" [className "font-bold text-xl text-gray-900"]
                   [LocaleNumber (Product.price product); Text "₮"];
                 (* Stock Status *)
                 Elem "div" [className "flex items-center gap-1"]
                   [Elem "Package" [className "h-4 w-4 text-gray-400"] [];
                    Elem "span"
                      [className ("text-sm font-medium "
                                  ++ (if isOutOfStock then "text-red-600"
                                      else if isLowStock then "text-orange-600"
                                      else "text-green-600"))]
                      [Text (if isOutOfStock then "Out of Stock"
                             else if isLowStock
                             then "Only " ++ Number_toString (Product.stock product) ++ " left"
                             else Number_toString (Product.stock product) ++ " in stock")]]];
              Elem "div" [className "flex items-center gap-2"]
                [Elem "button"
                   [onClick handleQuickView;
                    className "p-2 text-gray-600 hover:text-blue-600 hover:bg-blue-50 rounded-lg transition-colors";
                    title "Quick View"]
                   [Elem "Eye" [className "h-4 w-4"] []];
                 Elem "button"
                   [disabled isOutOfStock;
                    className ("px-4 py-2 rounded-lg text-sm font-medium transition-colors "
                               ++ (if isOutOfStock
                                   then "bg-gray-200 text-gray-500 cursor-not-allowed"
                                   else "bg-rose-500 text-white hover:bg-rose-600"))]
                   [Elem "ShoppingCart" [className "h-4 w-4 inline mr-2"] [];
                    Text (if isOutOfStock then "Unavailable" else "Add to Cart")]]]]]].

(** The grid branch, the default [return (...)]. *)
Definition grid_view (product : Product.t) (isLiked : bool)
    (onLikeToggle : option callback) (imageLoading : bool)
    (isOutOfStock isLowStock : bool) (handleQuickView : handler) : vnode :=
  Elem "div"
    [className "bg-white rounded-xl shadow-md hover:shadow-lg transition-shadow duration-200 overflow-hidden group"]
    [Elem "div" [className "relative"]
       [ (* Image *)
         Elem "Link"
           [href ("/shop/product/" ++ Number_toString (Product.id product));
            className "relative block h-48 bg-gray-200"]
           [when imageLoading
              (Elem "div" [className "absolute inset-0 flex items-center justify-center"]
                 [Elem "div"
                    [className "animate-spin rounded-full h-6 w-6 border-b-2 border-blue-600"]
                    []]);
            Elem "Image"
              [src (Product.imageUrl product);
               alt (Product.name product);
               fill;
               className ("object-cover transition-opacity duration-200 "
                          ++ (if imageLoading then "opacity-0" else "opacity-100"));
               onLoad SetImageLoadingFalse]
              [];
            when isOutOfStock
              (Elem "div"
                 [className "absolute inset-0 bg-black bg-opacity-50 flex items-center justify-center"]
                 [Elem "span" [className "text-white text-sm font-medium"]
                    [Text "Out of Stock"]])];
         (* Quick View Button *)
         Elem "button"
           [onClick handleQuickView;
            className "absolute top-2 right-2 p-2 bg-white/80 hover:bg-white rounded-full opacity-0 group-hover:opacity-100 transition-opacity duration-200";
            title "Quick View"]
           [Elem "Eye" [className "h-4 w-4 text-gray-700"] []];
         (* Like Button *)
         Elem "button"
           [onClick (PropCallback onLikeToggle);
            className "absolute top-2 left-2 p-2 bg-white/80 hover:bg-white rounded-full opacity-0 group-hover:opacity-100 transition-opacity duration-200"]
           [Elem "LikeButton" [isLikedAttr isLiked] []]];
     (* Info *)
     Elem "div" [className "p-4"]
       [Elem "Link" [href ("/shop/product/" ++ Number_toString (Product.id product))]
          [Elem "h3"
             [className "font-medium text-base text-gray-800 hover:text-blue-600 transition-colors mb-2 line-clamp-2"]
             [Text (Product.name product)]];
        Elem "p" [className "text-sm text-gray-500 mb-3"]
          [Text (nullish (opt_chain (Product.category product) Category.name)
                         "Ангилалгүй")];
        (* Stock Status *)
        Elem "div" [className "flex items-center gap-1 mb-3"]
          [Elem "Package" [className "h-3 w-3 text-gray-400"] [];
           Elem "span"
             [className ("text-xs font-medium "
                         ++ (if isOutOfStock then "text-red-600"
                             else if isLowStock then "text-orange-600"
                             else "text-green-600"))]
             [Text (if isOutOfStock then "Out of Stock"
                    else if isLowStock
                    then "Only " ++ Number_toString (Product.stock product) ++ " left"
                    else Number_toString (Product.stock product) ++ " in stock")]];
        Elem "div" [className "flex items-center justify-between mb-3"]
          [Elem "span" [className "font-bold text-lg text-gray-900"]
             [LocaleNumber (Product.price product); Text "₮"]];
        Elem "button"
          [disabled isOutOfStock;
           className ("w-full py-2 text-sm rounded-lg font-medium transition-colors "
                      ++ (if isOutOfStock
                          then "bg-gray-200 text-gray-500 cursor-not-allowed"
                          else "bg-rose-500 text-white hover:bg-rose-600"))]
          [Text (if isOutOfStock then "Unavailable" else "Add to Cart")]]].

(** The component: one render, from the props and the current value of the
    [imageLoading] state. [null] is [Nothing]. *)
Definition ProductCard (props : ProductCardProps) (imageLoading : bool)
  : completion vnode :=
  let isLiked := default_to (isLiked props) false in
  let viewMode := default_to (viewMode props) "grid" in
  if not_ (product props) then Normal Nothing
  else
    match deref (product props) with
    | Throw e => Throw e
    | Normal product =>
        let isOutOfStock := isOutOfStock product in
        let isLowStock := isLowStock product in
        let handleQuickView :=
          HandleQuickView (onQuickView props) (Product.id product) in
        if (viewMode =? "list")%string
        then Normal (list_view product isLiked (onLikeToggle props) imageLoading
                       isOutOfStock isLowStock handleQuickView)
        else Normal (grid_view product isLiked (onLikeToggle props) imageLoading
                       isOutOfStock isLowStock handleQuickView)
    end.

(** [useState(true)]: the state of a card when it mounts. *)
Definition imageLoading_initial : bool := true.

(** What each branch returns for [props] whose product is [p]. *)
Definition list_branch (props : ProductCardProps) (p : Product.t)
    (imageLoading : bool) : vnode :=
  list_view p (default_to (isLiked props) false) (onLikeToggle props)
    imageLoading (isOutOfStock p) (isLowStock p)
    (HandleQuickView (onQuickView props) (Product.id p)).

Definition grid_branch (props : ProductCardProps) (p : Product.t)
    (imageLoading : bool) : vnode :=
  grid_view p (default_to (isLiked props) false) (onLikeToggle props)
    imageLoading (isOutOfStock p) (isLowStock p)
    (HandleQuickView (onQuickView props) (Product.id p)).

(* ------------------------------------------------------------------ *)
(** ** Reading a rendered tree *)

Module Dom.

(** Every node of the tree that satisfies [p], in document order. *)
Fixpoint find_all (p : vnode -> bool) (n : vnode) : list vnode :=
  (if p n then [n] else [])
  ++ match n with
     | Elem _ _ children => flat_map (find_all p) children
     | _ => []
     end.

Definition find (p : vnode -> bool) (n : vnode) : option vnode :=
  hd_error (find_all p n).

(** The node reached from [n] by taking the [i]-th child at each step. *)
Fixpoint select (path : list nat) (n : vnode) : option vnode :=
  match path with
  | [] => Some n
  | i :: rest =>
      match n with
      | Elem _ _ children =>
          match nth_error children i with
          | Some c => select rest c
          | None => None
          end
      | _ => None
      end
  end.

Definition children_of (n : vnode) : list vnode :=
  match n with
  | Elem _ _ children => children
  | _ => []
  end.

Definition attrs_of (n : vnode) : list attr :=
  match n with
  | Elem _ attrs _ => attrs
  | _ => []
  end.

Definition is_tag (t : string) (n : vnode) : bool :=
  match n with
  | Elem tag _ _ => (tag =? t)%string
  | _ => false
  end.

Definition is_card (n : vnode) : bool :=
  match n with
  | CardElement _ _ => true
  | _ => false
  end.

Fixpoint get_className (attrs : list attr) : option string :=
  match attrs with
  | [] => None
  | className s :: _ => Some s
  | _ :: rest => get_className rest
  end.

Fixpoint get_title (attrs : list attr) : option string :=
  match attrs with
  | [] => None
  | title s :: _ => Some s
  | _ :: rest => get_title rest
  end.

Fixpoint get_disabled (attrs : list attr) : option bool :=
  match attrs with
  | [] => None
  | disabled b :: _ => Some b
  | _ :: rest => get_disabled rest
  end.

Fixpoint get_onClick (attrs : list attr) : option handler :=
  match attrs with
  | [] => None
  | onClick h :: _ => Some h
  | _ :: rest => get_onClick rest
  end.

Fixpoint get_onLoad (attrs : list attr) : option handler :=
  match attrs with
  | [] => None
  | onLoad h :: _ => Some h
  | _ :: rest => get_onLoad rest
  end.

(** The text a node shows, the locale-printed numbers left out. *)
Fixpoint textContent (n : vnode) : string :=
  match n with
  | Text s => s
  | Elem _ _ children => String.concat "" (map textContent children)
  | _ => ""
  end.

Definition has_class (c : string) (n : vnode) : bool :=
  match get_className (attrs_of n) with
  | Some s => (s =? c)%string
  | None => false
  end.

Definition class_starts_with (c : string) (n : vnode) : bool :=
  match get_className (attrs_of n) with
  | Some s => String.prefix c s
  | None => false
  end.

Definition first_child_is (t : string) (n : vnode) : bool :=
  match children_of n with
  | c :: _ => is_tag t c
  | [] => false
  end.

(** *** The parts of a rendered card *)

(** The stock-status label: the [span] next to the [Package] icon. *)
Definition stock_status (tree : vnode) : option vnode :=
  match find (first_child_is "Package") tree with
  | Some row => nth_error (children_of row) 1
  | None => None
  end.

(** The add-to-cart control: the button with a [disabled] attribute. *)
Definition add_to_cart (tree : vnode) : option vnode :=
  find (fun n => is_tag "button" n
                 && match get_disabled (attrs_of n) with
                    | Some _ => true
                    | None => false
                    end) tree.

(** The quick-view control: the button titled "Quick View". *)
Definition quick_view (tree : vnode) : option vnode :=
  find (fun n => is_tag "button" n
                 && match get_title (attrs_of n) with
                    | Some t => (t =? "Quick View")%string
                    | None => false
                    end) tree.

(** The like control: the button around [LikeButton]. *)
Definition like_control (tree : vnode) : option vnode :=
  find (fun n => is_tag "button" n && first_child_is "LikeButton" n) tree.

Definition image (tree : vnode) : option vnode :=
  find (is_tag "Image") tree.

(** The category line: the paragraph in the category's grey. *)
Definition category_label (tree : vnode) : option vnode :=
  find (fun n => is_tag "p" n && class_starts_with "text-sm text-gray-500" n)
       tree.

(** The unavailability overlay on the image. *)
Definition overlay (tree : vnode) : option vnode :=
  find (has_class "absolute inset-0 bg-black bg-opacity-50 flex items-center justify-center")
       tree.

Definition handler_of
    (part : vnode -> option vnode) (get : list attr -> option handler)
    (tree : vnode) : option handler :=
  match part tree with
  | Some n => get (attrs_of n)
  | None => None
  end.

End Dom.

(* ------------------------------------------------------------------ *)
(** ** What the card's handlers do *)

Record MouseEvent : Type := {
  defaultPrevented : bool;
  propagationStopped : bool
}.

(** An event as the browser dispatches it. *)
Definition fresh_event : MouseEvent :=
  {| defaultPrevented := false; propagationStopped := false |}.

Module Card.

(** What a handler of one mounted card can touch: the event it is
    handling, the parent's callbacks (of which the invocations are
    recorded), and the card's own state. [staleWrites] counts the state
    writes made while the card was no longer mounted. *)
Record world : Type := {
  event : MouseEvent;
  calls : list invocation;
  imageLoading : bool;
  mounted : bool;
  staleWrites : nat
}.

Definition preventDefault : M world unit :=
  modify (fun w =>
    {| event := {| defaultPrevented := true;
                   propagationStopped := propagationStopped (event w) |};
       calls := calls w; imageLoading := imageLoading w;
       mounted := mounted w; staleWrites := staleWrites w |}).

Definition stopPropagation : M world unit :=
  modify (fun w =>
    {| event := {| defaultPrevented := defaultPrevented (event w);
                   propagationStopped := true |};
       calls := calls w; imageLoading := imageLoading w;
       mounted := mounted w; staleWrites := staleWrites w |}).

Definition call (f : callback) (args : list value) : M world unit :=
  modify (fun w =>
    {| event := event w;
       calls := calls w ++ [Invoke f args];
       imageLoading := imageLoading w;
       mounted := mounted w; staleWrites := staleWrites w |}).

(** [setImageLoading]. React drops a state write to a component that is
    no longer mounted: the state of such a card stays as it was, and the
    write is counted. *)
Definition setImageLoading (b : bool) : M world unit :=
  modify (fun w =>
    if mounted w
    then {| event := event w; calls := calls w;
            imageLoading := b;
            mounted := mounted w; staleWrites := staleWrites w |}
    else {| event := event w; calls := calls w;
            imageLoading := imageLoading w;
            mounted := mounted w; staleWrites := S (staleWrites w) |}).

Definition with_event (e : MouseEvent) (w : world) : world :=
  {| event := e; calls := calls w; imageLoading := imageLoading w;
     mounted := mounted w; staleWrites := staleWrites w |}.

Definition unmount (w : world) : world :=
  {| event := event w; calls := calls w; imageLoading := imageLoading w;
     mounted := false; staleWrites := staleWrites w |}.

End Card.

(** [handleQuickView], closed over [onQuickView] and [product.id]. *)
Definition handleQuickView (onQuickView : option callback) (productId : Z)
  : M Card.world unit :=
  (Card.preventDefault ;;
   Card.stopPropagation ;;
   match onQuickView with
   | Some f => Card.call f [VNum productId]
   | None => ret tt
   end)%js.

(** Running a handler that an element carries. React calls an [onClick]
    with the event; an absent handler does nothing. *)
Definition fire (h : handler) : M Card.world unit :=
  match h with
  | PropCallback (Some f) => Card.call f [VEvent]
  | PropCallback None => ret tt
  | HandleQuickView onQuickView productId =>
      handleQuickView onQuickView productId
  | SetImageLoadingFalse => Card.setImageLoading false
  end.

(** *** One card over time *)

Record CardInstance : Type := {
  card_props : ProductCardProps;
  card_world : Card.world
}.

(** What can happen to a card between its mount and its disposal. *)
Inductive card_event : Type :=
| ClickQuickView
| ClickLike
| ImageLoaded
| Rerender (props' : ProductCardProps)
| UnmountCard.

(** A new instance: [useState(true)]. *)
Definition mount_card (props : ProductCardProps) : CardInstance :=
  {| card_props := props;
     card_world := {| Card.event := fresh_event;
                      Card.calls := [];
                      Card.imageLoading := imageLoading_initial;
                      Card.mounted := true;
                      Card.staleWrites := 0%nat |} |}.

(** The event reaches the element [part] of the current render and runs the
    handler [get] finds there, if the element and the handler exist. *)
Definition dispatch (part : vnode -> option vnode)
    (get : list attr -> option handler) (c : CardInstance) : CardInstance :=
  match ProductCard (card_props c) (Card.imageLoading (card_world c)) with
  | Normal tree =>
      match Dom.handler_of part get tree with
      | Some h =>
          {| card_props := card_props c;
             card_world := snd (fire h (Card.with_event fresh_event (card_world c))) |}
      | None => c
      end
  | Throw _ => c
  end.

Definition card_step (ev : card_event) (c : CardInstance) : CardInstance :=
  match ev with
  | ClickQuickView => dispatch Dom.quick_view Dom.get_onClick c
  | ClickLike => dispatch Dom.like_control Dom.get_onClick c
  | ImageLoaded => dispatch Dom.image Dom.get_onLoad c
  | Rerender props' => {| card_props := props'; card_world := card_world c |}
  | UnmountCard =>
      {| card_props := card_props c; card_world := Card.unmount (card_world c) |}
  end.

Definition card_run (evs : list card_event) (c : CardInstance) : CardInstance :=
  fold_left (fun c ev => card_step ev c) evs c.

(** The values [imageLoading] takes along a run, the first one included. *)
Fixpoint imageLoading_history (evs : list card_event) (c : CardInstance)
  : list bool :=
  Card.imageLoading (card_world c)
  :: match evs with
     | [] => []
     | ev :: rest => imageLoading_history rest (card_step ev c)
     end.

(** The number of places where a list of booleans goes from [a] to [b]. *)
Fixpoint transitions (a b : bool) (h : list bool) : nat :=
  match h with
  | [] => 0%nat
  | x :: rest =>
      ((match rest with
        | y :: _ => if Bool.eqb x a && Bool.eqb y b then 1 else 0
        | [] => 0
        end)
       + transitions a b rest)%nat
  end.

(* ------------------------------------------------------------------ *)
(** ** HomePage *)

(** What the [products] state can hold at run time. It is typed
    [Product[]], but the value of [res.json()] is untyped and is stored
    unchecked: a body that parses to something that is not an array ends up
    in the state as it is. The elements of an array are taken to be
    product records, as the page's [Product] type has them. *)
Inductive catalog : Type :=
| ProductArray (items : list Product.t)
| NonArray.

#[local] Set Warnings "-uniform-inheritance".
Coercion ProductArray : list >-> catalog.
#[local] Set Warnings "uniform-inheritance".

Record Response : Type := {
  ok : bool;
  json : settled catalog
    (** what [res.json()] settles to: the parsed body, or a rejection when
        the body does not parse *)
}.

Module Page.

(** What the page's code can touch: its [products] state and the console.
    [staleWrites] counts the state writes made while the page was no
    longer mounted. *)
Record world : Type := {
  products : catalog;
  console : list string;
  mounted : bool;
  staleWrites : nat
}.

(** [setProducts]. React drops a state write to a component that is no
    longer mounted: the state of such a page stays as it was, and the write
    is counted. *)
Definition setProducts (data : catalog) : M world unit :=
  modify (fun w =>
    if mounted w
    then {| products := data;
            console := console w;
            mounted := mounted w; staleWrites := staleWrites w |}
    else {| products := products w;
            console := console w;
            mounted := mounted w; staleWrites := S (staleWrites w) |}).

Definition console_error (msg : string) : M world unit :=
  modify (fun w =>
    {| products := products w;
       console := console w ++ [msg];
       mounted := mounted w;
       staleWrites := staleWrites w |}).

Definition unmount (w : world) : world :=
  {| products := products w; console := console w;
     mounted := false; staleWrites := staleWrites w |}.

End Page.

(** [fetchFeaturedProducts]. [fetch url] is what the request for [url]
    settles to. *)
Definition fetchFeaturedProducts (fetch : string -> settled Response)
  : M Page.world unit :=
  (res <- await (fetch "/api/product") ;;
   if ok res
   then data <- await (json res) ;; Page.setProducts data
   else Page.console_error "Product fetch error")%js.

(** The props of [<ProductCard key={product.id} product={product} />]. *)
Definition card_of (product : Product.t) : vnode :=
  CardElement (Product.id product)
    {| product := Some product;
       isLiked := None;
       onLikeToggle := None;
       viewMode := None;
       onQuickView := None |}.

(** The tree the page returns, from the array that [products] holds. *)
Definition HomePage (products : list Product.t) : vnode :=
  Elem "main" [className "mr-16 ml-16"]
    [Elem "div" [className "pr-4 pl-4"]
       [Elem "Slider" [] [];
        Elem "h1" [className "primary-header pt-8"]
          [Text "Ангиллаар дэлгүүр хэсэх"];
        Elem "div"
          [className "touch-auto flex w-full overflow-x-scroll flex-nowrap -hide gap-4 py-4"]
          [Elem "Category" [layout "row"] []];
        Elem "h1" [className "primary-header pt-8"]
          [Text "Онцлох бүтээгдэхүүн"];
        Elem "div" [className "product-list flex flex-wrap p-2 gap-4 rounded-lg mb-8"]
          (map (fun product => card_of product) products);
        Elem "h1" [className "primary-header"]
          [Text "Бүх бүтээгдэхүүн"];
        Elem "div" [className "product-list flex flex-wrap p-2 gap-4 rounded-lg mb-8"]
          (map (fun product => card_of product) products)]].

(** The "featured" section: the children of the block that follows the
    heading "Онцлох бүтээгдэхүүн". *)
Definition featured_section (tree : vnode) : list vnode :=
  match Dom.select [0; 4]%nat tree with
  | Some n => Dom.children_of n
  | None => []
  end.

(** The "all products" section: the children of the block that follows the
    heading "Бүх бүтээгдэхүүн". *)
Definition all_products_section (tree : vnode) : list vnode :=
  match Dom.select [0; 6]%nat tree with
  | Some n => Dom.children_of n
  | None => []
  end.

(** *** The page over time *)

(** [pending] holds while the request issued at mount has not settled;
    [unhandled] collects the rejections of the promise that the effect
    drops. *)
Record PageInstance : Type := {
  page_world : Page.world;
  pending : bool;
  unhandled : list string
}.

Inductive page_event : Type :=
| FetchSettles
| UnmountPage.

(** Mount: [useState([])], then the effect calls [fetchFeaturedProducts],
    which issues the request and suspends on it. *)
Definition mount_page : PageInstance :=
  {| page_world := {| Page.products := ProductArray [];
                      Page.console := [];
                      Page.mounted := true;
                      Page.staleWrites := 0%nat |};
     pending := true;
     unhandled := [] |}.

(** [FetchSettles] resumes [fetchFeaturedProducts] after its first [await]:
    all the effects of the function happen then. The effect registered by
    [useEffect] returns no cleanup, so [UnmountPage] leaves the request
    pending. *)
Definition page_step (fetch : string -> settled Response)
    (ev : page_event) (pg : PageInstance) : PageInstance :=
  match ev with
  | FetchSettles =>
      if pending pg
      then
        match fetchFeaturedProducts fetch (page_world pg) with
        | (Normal _, w') =>
            {| page_world := w'; pending := false; unhandled := unhandled pg |}
        | (Throw e, w') =>
            {| page_world := w'; pending := false;
               unhandled := unhandled pg ++ [e] |}
        end
      else pg
  | UnmountPage =>
      {| page_world := Page.unmount (page_world pg);
         pending := pending pg;
         unhandled := unhandled pg |}
  end.

Definition page_run (fetch : string -> settled Response)
    (evs : list page_event) (pg : PageInstance) : PageInstance :=
  fold_left (fun pg ev => page_step fetch ev pg) evs pg.

(** One render of the page, from what [products] holds. [products.map]
    exists on an array only: with anything else in the state the render
    throws a TypeError. *)
Definition HomePage_render (products : catalog) : completion vnode :=
  match products with
  | ProductArray items => Normal (HomePage items)
  | NonArray => Throw "TypeError"
  end.

(** What the page shows: the tree of its render, and nothing of its own
    when the render throws. *)
Definition page_render (pg : PageInstance) : vnode :=
  match HomePage_render (Page.products (page_world pg)) with
  | Normal tree => tree
  | Throw _ => Nothing
  end.

(* ------------------------------------------------------------------ *)
(** ** Vocabulary of the properties *)

(** The three stock classes. The card never names them: it reads them off
    its two flags with [isOutOfStock ? _ : isLowStock ? _ : _], which is
    what [classify] does. *)
Inductive stock_class : Type :=
| OutOfStock
| LowStock
| InStock.

Definition classify (product : Product.t) : stock_class :=
  if isOutOfStock product then OutOfStock
  else if isLowStock product then LowStock
  else InStock.

Definition is_out (c : stock_class) : bool :=
  match c with
  | OutOfStock => true
  | _ => false
  end.

(** The stock-status label of each class, for a stock of [n]. *)
Definition stock_label (c : stock_class) (n : Z) : string :=
  match c with
  | OutOfStock => "Out of Stock"
  | LowStock => ("Only " ++ Number_toString n ++ " left")%string
  | InStock => (Number_toString n ++ " in stock")%string
  end.

(** The label of the add-to-cart control of each class. *)
Definition cart_label (c : stock_class) : string :=
  match c with
  | OutOfStock => "Unavailable"
  | _ => "Add to Cart"
  end.

(** The colour of the stock-status label. *)
Definition severity (c : stock_class) : string :=
  match c with
  | OutOfStock => "text-red-600"
  | LowStock => "text-orange-600"
  | InStock => "text-green-600"
  end.

Definition class_of (n : option vnode) : option string :=
  match n with
  | Some n => Dom.get_className (Dom.attrs_of n)
  | None => None
  end.

Definition text_of (n : option vnode) : option string :=
  option_map Dom.textContent n.

Definition disabled_of (n : option vnode) : option bool :=
  match n with
  | Some n => Dom.get_disabled (Dom.attrs_of n)
  | None => None
  end.

Definition is_present (n : option vnode) : bool :=
  match n with
  | Some _ => true
  | None => false
  end.

(** A card of the page, rendered as it is when it mounts; any other node
    is left as it is. *)
Definition render_at_mount (n : vnode) : completion vnode :=
  match n with
  | CardElement _ props => ProductCard props imageLoading_initial
  | other => Normal other
  end.

(** What a card element of a section says: its key, its product and the
    view mode in effect. *)
Definition card_summary (n : vnode) : option (Z * Product.t * string) :=
  match n with
  | CardElement key props =>
      match product props with
      | Some p => Some (key, p, default_to (viewMode props) "grid")
      | None => None
      end
  | _ => None
  end.

(** A product section in the spec's words: every loaded product, in the
    order received, as a grid-mode card (keyed by the product's id). *)
Definition section_spec (products : list Product.t)
  : list (option (Z * Product.t * string)) :=
  map (fun p => Some (Product.id p, p, "grid")) products.

(** The invocations of [f] with exactly the arguments [args]. *)
Definition invocations_of (f : callback) (args : list value)
    (calls : list invocation) : nat :=
  List.length
    (filter (fun c =>
               match c with
               | Invoke g a =>
                   Nat.eqb g f
                   && match a, args with
                      | [VNum x], [VNum y] => x =? y
                      | _, _ => false
                      end
               end) calls).

(** What the browser does with a click once the handlers on its target have
    run: an enclosing link navigates unless the default was prevented, and
    the handlers of the ancestors run unless the propagation was stopped. *)
Definition link_navigates (e : MouseEvent) : bool :=
  negb (defaultPrevented e).

Definition reaches_ancestors (e : MouseEvent) : bool :=
  negb (propagationStopped e).

(** The props of the card the page builds for [p]. *)
Definition page_card_props (p : Product.t) : ProductCardProps :=
  {| product := Some p; isLiked := None; onLikeToggle := None;
     viewMode := None; onQuickView := None |}.

(** Sample data for the closed statements below. *)
Definition sample_product : Product.t :=
  {| Product.id := 1;
     Product.name := "A";
     Product.category := None;
     Product.description := "";
     Product.price := 1000;
     Product.stock := 3;
     Product.imageUrl := "/a.png";
     Product.createdAt := DateString "2024-01-01";
     Product.updatedAt := DateString "2024-01-01" |}.

Definition failing_fetch (url : string) : settled Response :=
  Fulfilled {| ok := false; json := Rejected "Unexpected end of JSON input" |}.

Definition succeeding_fetch (url : string) : settled Response :=
  Fulfilled {| ok := true;
               json := Fulfilled (ProductArray [sample_product]) |}.

Definition misshapen_fetch (url : string) : settled Response :=
  Fulfilled {| ok := true; json := Fulfilled NonArray |}.

Definition sample_props (p : option Product.t) (vm : option string)
    (onQV : option callback) : ProductCardProps :=
  {| product := p; isLiked := None; onLikeToggle := None;
     viewMode := vm; onQuickView := onQV |}.

(* ------------------------------------------------------------------ *)
(** ** Vocabulary for the rest of the card and of the page *)


Fixpoint get_src (attrs : list attr) : option string :=
  match attrs with
  | [] => None
  | src s :: _ => Some s
  | _ :: rest => get_src rest
  end.

Fixpoint get_alt (attrs : list attr) : option string :=
  match attrs with
  | [] => None
  | alt s :: _ => Some s
  | _ :: rest => get_alt rest
  end.

Fixpoint get_isLiked (attrs : list attr) : option bool :=
  match attrs with
  | [] => None
  | isLikedAttr b :: _ => Some b
  | _ :: rest => get_isLiked rest
  end.

(** The path of a product's detail page, [`/shop/product/${product.id}`]. *)
Definition detail_path (id : Z) : string :=
  ("/shop/product/" ++ Number_toString id)%string.

(** The links of a tree, in document order, and where each one leads. *)
Definition links_of (tree : vnode) : list vnode :=
  Dom.find_all (Dom.is_tag "Link") tree.


(** The buttons of a tree, in document order. *)
Definition buttons_of (tree : vnode) : list vnode :=
  Dom.find_all (Dom.is_tag "button") tree.

(** The loading placeholder on the image. *)
Definition spinner_of (tree : vnode) : option vnode :=
  Dom.find
    (Dom.has_class "animate-spin rounded-full h-6 w-6 border-b-2 border-blue-600")
    tree.

(** The description paragraph. *)
Definition description_of (tree : vnode) : option vnode :=
  Dom.find (fun n => Dom.is_tag "p" n
                     && Dom.has_class "text-gray-600 text-sm mb-4 line-clamp-2" n)
           tree.

(** The [LikeButton] element. *)
Definition like_icon_of (tree : vnode) : option vnode :=
  Dom.find (Dom.is_tag "LikeButton") tree.

(** The handlers that the elements of a tree carry, in document order. *)
Definition attr_handlers (attrs : list attr) : list handler :=
  flat_map (fun a =>
              match a with
              | onClick h => [h]
              | onLoad h => [h]
              | _ => []
              end) attrs.

Fixpoint handlers_in (n : vnode) : list handler :=
  match n with
  | Elem _ attrs children =>
      attr_handlers attrs ++ flat_map handlers_in children
  | _ => []
  end.

(** What the parent hears of one event on a card with the props [props]:
    a click on the quick-view control reports the product's id to
    [onQuickView], a click on the like control hands the event to
    [onLikeToggle], and nothing else is reported. *)
Definition notified (props : ProductCardProps) (ev : card_event)
  : list invocation :=
  match product props, ev with
  | Some p, ClickQuickView =>
      match onQuickView props with
      | Some f => [Invoke f [VNum (Product.id p)]]
      | None => []
      end
  | Some _, ClickLike =>
      match onLikeToggle props with
      | Some f => [Invoke f [VEvent]]
      | None => []
      end
  | _, _ => []
  end.

Definition props_after (props : ProductCardProps) (ev : card_event)
  : ProductCardProps :=
  match ev with
  | Rerender props' => props'
  | _ => props
  end.

(** What the parent hears along a run of events, in order. *)
Fixpoint expected_calls (props : ProductCardProps) (evs : list card_event)
  : list invocation :=
  match evs with
  | [] => []
  | ev :: rest =>
      notified props ev ++ expected_calls (props_after props ev) rest
  end.

(** The key of a card element of the page. *)
Definition card_key (n : vnode) : option Z :=
  match n with
  | CardElement key _ => Some key
  | _ => None
  end.

(** A product with some of its fields replaced. *)
Definition with_description (d : string) (p : Product.t) : Product.t :=
  {| Product.id := Product.id p;
     Product.name := Product.name p;
     Product.category := Product.category p;
     Product.description := d;
     Product.price := Product.price p;
     Product.stock := Product.stock p;
     Product.imageUrl := Product.imageUrl p;
     Product.createdAt := Product.createdAt p;
     Product.updatedAt := Product.updatedAt p |}.

Definition with_timestamps (created updated : timestamp) (p : Product.t)
  : Product.t :=
  {| Product.id := Product.id p;
     Product.name := Product.name p;
     Product.category := Product.category p;
     Product.description := Product.description p;
     Product.price := Product.price p;
     Product.stock := Product.stock p;
     Product.imageUrl := Product.imageUrl p;
     Product.createdAt := created;
     Product.updatedAt := updated |}.

Definition with_category (c : option Category.t) (p : Product.t)
  : Product.t :=
  {| Product.id := Product.id p;
     Product.name := Product.name p;
     Product.category := c;
     Product.description := Product.description p;
     Product.price := Product.price p;
     Product.stock := Product.stock p;
     Product.imageUrl := Product.imageUrl p;
     Product.createdAt := Product.createdAt p;
     Product.updatedAt := Product.updatedAt p |}.

(** The request for the catalog as the page issues it, and the ways it can
    go wrong without a status: the request itself fails, or the body of a
    successful response does not parse. *)
Definition catalog_url : string := "/api/product".

Definition fetch_fails (fetch : string -> settled Response) (reason : string)
  : Prop :=
  fetch catalog_url = Rejected reason
  \/ exists res,
       fetch catalog_url = Fulfilled res
       /\ ok res = true
       /\ json res = Rejected reason.

Definition unreachable_fetch (url : string) : settled Response :=
  Rejected "Failed to fetch".

Definition unparsable_fetch (url : string) : settled Response :=
  Fulfilled {| ok := true; json := Rejected "Unexpected token" |}.

(* ------------------------------------------------------------------ *)
(** ** The stock, the image state and the page in the spec's words *)

(** The stock class, read off the stock alone: out-of-stock when
    [s <= 0], low-stock when [0 < s <= 5], in-stock when [s > 5]. *)
Definition class_of_stock (s : Z) : stock_class :=
  if s <=? 0 then OutOfStock
  else if s <=? 5 then LowStock
  else InStock.

(** The stock-status label for a stock of [s]: "Out of Stock", "Only N
    left" or "N in stock", where N is the count in decimal digits; from 2^53
    on, where a number no longer prints digit for digit, N is the text
    JavaScript gives the count. *)
Definition label_of_stock (s : Z) : string :=
  match class_of_stock s with
  | OutOfStock => "Out of Stock"
  | LowStock => ("Only " ++ decimal s ++ " left")%string
  | InStock =>
      ((if (s <? 2 ^ 53)%Z then decimal s else Number_toString s)
       ++ " in stock")%string
  end.

(** Whether the event is a completion signal of the image that reaches the
    card: the card shows an image (it has a product) and is still
    mounted. *)
Definition signal_reaches (props : ProductCardProps) (mounted : bool)
    (ev : card_event) : bool :=
  match ev with
  | ImageLoaded =>
      match product props with
      | Some _ => mounted
      | None => false
      end
  | _ => false
  end.

(** [imageLoading] after one event: [false] once the signal has reached
    the card, and what it was otherwise. *)
Definition loading_after (props : ProductCardProps) (mounted loading : bool)
    (ev : card_event) : bool :=
  if signal_reaches props mounted ev then false else loading.

Definition mounted_after (mounted : bool) (ev : card_event) : bool :=
  match ev with
  | UnmountCard => false
  | _ => mounted
  end.

(** The values [imageLoading] is to take along a run. *)
Fixpoint expected_loading (props : ProductCardProps) (mounted loading : bool)
    (evs : list card_event) : list bool :=
  loading
  :: match evs with
     | [] => []
     | ev :: rest =>
         expected_loading (props_after props ev) (mounted_after mounted ev)
           (loading_after props mounted loading ev) rest
     end.

(** Whether a completion signal reaches the card somewhere in the run. *)
Fixpoint load_signal_arrives (props : ProductCardProps) (mounted : bool)
    (evs : list card_event) : bool :=
  match evs with
  | [] => false
  | ev :: rest =>
      signal_reaches props mounted ev
      || load_signal_arrives (props_after props ev) (mounted_after mounted ev)
           rest
  end.

(** Where a page can be, for a given behaviour of the network: waiting
    with nothing touched, or settled in one of three ways. After an ok
    response whose body parsed, the state holds the parsed body as it is,
    unless the page had been unmounted, in which case the one write was
    dropped and the catalog is still empty; nothing is logged. After a
    non-success status the catalog is empty and the console has its one
    line. After a failure without a status the catalog is empty and one
    rejection was dropped. *)
Definition page_outcome (fetch : string -> settled Response)
    (pg : PageInstance) : Prop :=
  let w := page_world pg in
  if pending pg
  then Page.products w = [] /\ Page.console w = []
       /\ unhandled pg = [] /\ Page.staleWrites w = 0%nat
  else
    (exists res data,
        fetch catalog_url = Fulfilled res /\ ok res = true
        /\ json res = Fulfilled data
        /\ Page.console w = [] /\ unhandled pg = []
        /\ ((Page.products w = data /\ Page.staleWrites w = 0%nat)
            \/ (Page.mounted w = false /\ Page.products w = []
                /\ Page.staleWrites w = 1%nat)))
    \/ (exists res,
          fetch catalog_url = Fulfilled res /\ ok res = false
          /\ Page.products w = []
          /\ Page.console w = ["Product fetch error"]
          /\ unhandled pg = [] /\ Page.staleWrites w = 0%nat)
    \/ (exists reason,
          fetch_fails fetch reason
          /\ Page.products w = [] /\ Page.console w = []
          /\ unhandled pg = [reason] /\ Page.staleWrites w = 0%nat).

(* ------------------------------------------------------------------ *)
(** ** Lemmas on one render *)

Lemma Normal_inj {A : Type} (a b : A) : Normal a = Normal b -> a = b.
Proof. intros H. injection H as H. exact H. Qed.

Lemma ProductCard_present props p st :
  product props = Some p ->
  ProductCard props st =
  Normal (if (default_to (viewMode props) "grid" =? "list")%string
          then list_branch props p st
          else grid_branch props p st).
Proof.
  intros Hp. unfold ProductCard, list_branch, grid_branch.
  rewrite Hp. cbn [not_ deref].
  destruct (default_to (viewMode props) "grid" =? "list")%string; reflexivity.
Qed.

Lemma ProductCard_absent props st :
  product props = None -> ProductCard props st = Normal Nothing.
Proof.
  intros Hp. unfold ProductCard. rewrite Hp. reflexivity.
Qed.

(** The parts of the two branches. Which children exist depends on
    [imageLoading] and [isOutOfStock] only. *)
Ltac by_shape st out := destruct st, out; reflexivity.

Lemma stock_status_list p l o st out low h :
  Dom.stock_status (list_view p l o st out low h) =
  Some (Elem "span"
          [className ("text-sm font-medium "
                      ++ (if out then "text-red-600"
                          else if low then "text-orange-600"
                          else "text-green-600"))]
          [Text (if out then "Out of Stock"
                 else if low
                 then "Only " ++ Number_toString (Product.stock p) ++ " left"
                 else Number_toString (Product.stock p) ++ " in stock")]).
Proof. by_shape st out. Qed.

Lemma stock_status_grid p l o st out low h :
  Dom.stock_status (grid_view p l o st out low h) =
  Some (Elem "span"
          [className ("text-xs font-medium "
                      ++ (if out then "text-red-600"
                          else if low then "text-orange-600"
                          else "text-green-600"))]
          [Text (if out then "Out of Stock"
                 else if low
                 then "Only " ++ Number_toString (Product.stock p) ++ " left"
                 else Number_toString (Product.stock p) ++ " in stock")]).
Proof. by_shape st out. Qed.

Lemma add_to_cart_list p l o st out low h :
  disabled_of (Dom.add_to_cart (list_view p l o st out low h)) = Some out
  /\ text_of (Dom.add_to_cart (list_view p l o st out low h)) =
     Some (if out then "Unavailable" else "Add to Cart").
Proof. split; by_shape st out. Qed.

Lemma add_to_cart_grid p l o st out low h :
  disabled_of (Dom.add_to_cart (grid_view p l o st out low h)) = Some out
  /\ text_of (Dom.add_to_cart (grid_view p l o st out low h)) =
     Some (if out then "Unavailable" else "Add to Cart").
Proof. split; by_shape st out. Qed.

Lemma overlay_list p l o st out low h :
  is_present (Dom.overlay (list_view p l o st out low h)) = out
  /\ (out = true ->
      text_of (Dom.overlay (list_view p l o st out low h)) = Some "Out of Stock").
Proof. split; [| intros ->; destruct st; reflexivity ]; by_shape st out. Qed.

Lemma overlay_grid p l o st out low h :
  is_present (Dom.overlay (grid_view p l o st out low h)) = out
  /\ (out = true ->
      text_of (Dom.overlay (grid_view p l o st out low h)) = Some "Out of Stock").
Proof. split; [| intros ->; destruct st; reflexivity ]; by_shape st out. Qed.

Lemma quick_view_list p l o st out low h :
  Dom.handler_of Dom.quick_view Dom.get_onClick (list_view p l o st out low h)
  = Some h.
Proof. by_shape st out. Qed.

Lemma quick_view_grid p l o st out low h :
  Dom.handler_of Dom.quick_view Dom.get_onClick (grid_view p l o st out low h)
  = Some h.
Proof. by_shape st out. Qed.

Lemma like_control_list p l o st out low h :
  Dom.handler_of Dom.like_control Dom.get_onClick (list_view p l o st out low h)
  = Some (PropCallback o).
Proof. by_shape st out. Qed.

Lemma like_control_grid p l o st out low h :
  Dom.handler_of Dom.like_control Dom.get_onClick (grid_view p l o st out low h)
  = Some (PropCallback o).
Proof. by_shape st out. Qed.

Lemma image_list p l o st out low h :
  Dom.handler_of Dom.image Dom.get_onLoad (list_view p l o st out low h)
  = Some SetImageLoadingFalse.
Proof. by_shape st out. Qed.

Lemma image_grid p l o st out low h :
  Dom.handler_of Dom.image Dom.get_onLoad (grid_view p l o st out low h)
  = Some SetImageLoadingFalse.
Proof. by_shape st out. Qed.

Lemma category_label_list p l o st out low h :
  text_of (Dom.category_label (list_view p l o st out low h)) =
  Some (nullish (opt_chain (Product.category p) Category.name) "Ангилалгүй").
Proof. by_shape st out. Qed.

Lemma category_label_grid p l o st out low h :
  text_of (Dom.category_label (grid_view p l o st out low h)) =
  Some (nullish (opt_chain (Product.category p) Category.name) "Ангилалгүй").
Proof. by_shape st out. Qed.

(** The two flags against the ranges of the stock. *)
Lemma isOutOfStock_spec p : isOutOfStock p = true <-> Product.stock p <= 0.
Proof. unfold isOutOfStock. apply Z.leb_le. Qed.

Lemma isLowStock_spec p :
  isLowStock p = true <-> 0 < Product.stock p <= 5.
Proof.
  unfold isLowStock.
  rewrite andb_true_iff, Z.gtb_ltb, Z.ltb_lt, Z.leb_le. tauto.
Qed.

Lemma classify_spec p :
  (classify p = OutOfStock <-> Product.stock p <= 0)
  /\ (classify p = LowStock <-> 0 < Product.stock p <= 5)
  /\ (classify p = InStock <-> 5 < Product.stock p).
Proof.
  unfold classify, isOutOfStock, isLowStock. rewrite Z.gtb_ltb.
  destruct (Z.leb_spec (Product.stock p) 0);
    destruct (Z.ltb_spec 0 (Product.stock p));
    destruct (Z.leb_spec (Product.stock p) 5);
    cbn; repeat split; intros; try discriminate; try reflexivity; lia.
Qed.

(* ------------------------------------------------------------------ *)
(** ** Stock classification *)

(** C1. The stock of a product falls in exactly one of three classes:
    out-of-stock when [stock <= 0], low-stock when [0 < stock <= 5],
    in-stock when [stock > 5] (for every integer stock, the non-negative
    ones included); the classes exclude one another and cover every value.
    In both view modes every decision that depends on the stock is taken
    from this classification: the overlay on the image, the colour of the
    stock-status label and its text, and the disabled state and the label of
    the add-to-cart control. *)
Theorem stock_classes_partition_and_drive_both_views :
  forall (p : Product.t) (l : option bool) (o : option callback)
         (vm : option string) (q : option callback) (st : bool),
    let s := Product.stock p in
    let props := {| product := Some p; isLiked := l; onLikeToggle := o;
                    viewMode := vm; onQuickView := q |} in
    ((classify p = OutOfStock <-> s <= 0)
     /\ (classify p = LowStock <-> 0 < s <= 5)
     /\ (classify p = InStock <-> 5 < s))
    /\ ((isOutOfStock p = true <-> s <= 0)
        /\ (isLowStock p = true <-> 0 < s <= 5)
        /\ (isOutOfStock p = false /\ isLowStock p = false <-> 5 < s))
    /\ (isOutOfStock p && isLowStock p = false)
    /\ ((s <= 0 /\ ~ 0 < s <= 5 /\ ~ 5 < s)
        \/ (~ s <= 0 /\ 0 < s <= 5 /\ ~ 5 < s)
        \/ (~ s <= 0 /\ ~ 0 < s <= 5 /\ 5 < s))
    /\ exists tree,
        ProductCard props st = Normal tree
        /\ is_present (Dom.overlay tree) = is_out (classify p)
        /\ (exists size,
              class_of (Dom.stock_status tree)
              = Some (size ++ severity (classify p))%string)
        /\ text_of (Dom.stock_status tree)
           = Some (stock_label (classify p) s)
        /\ disabled_of (Dom.add_to_cart tree) = Some (is_out (classify p))
        /\ text_of (Dom.add_to_cart tree) = Some (cart_label (classify p)).
Proof.
  intros p l o vm q st s props.
  pose proof (classify_spec p) as Hc.
  pose proof (isOutOfStock_spec p) as Ho.
  pose proof (isLowStock_spec p) as Hl.
  fold s in Hc, Ho, Hl.
  split; [exact Hc |].
  split.
  { split; [exact Ho |]. split; [exact Hl |].
    split.
    - intros [Hno Hnl].
      destruct (Z_le_gt_dec s 0) as [H0 | H0];
        [apply Ho in H0; congruence |].
      destruct (Z_le_gt_dec s 5) as [H5 | H5]; [| lia].
      assert (Hlow : 0 < s <= 5) by lia.
      apply Hl in Hlow. congruence.
    - intros H5. split.
      + destruct (isOutOfStock p) eqn:E; [| reflexivity].
        apply isOutOfStock_spec in E. fold s in E. lia.
      + destruct (isLowStock p) eqn:E; [| reflexivity].
        apply isLowStock_spec in E. fold s in E. lia. }
  split.
  { destruct (isOutOfStock p) eqn:Eo; [| reflexivity].
    destruct (isLowStock p) eqn:El; [| reflexivity].
    apply isOutOfStock_spec in Eo. apply isLowStock_spec in El.
    fold s in Eo, El. lia. }
  split; [lia |].
  rewrite (ProductCard_present props p st eq_refl).
  unfold list_branch, grid_branch, classify.
  destruct (default_to (viewMode props) "grid" =? "list")%string;
    eexists; (split; [reflexivity |]).
  - destruct (overlay_list p (default_to (isLiked props) false)
                (onLikeToggle props) st (isOutOfStock p) (isLowStock p)
                (HandleQuickView (onQuickView props) (Product.id p)))
      as [Hov _].
    destruct (add_to_cart_list p (default_to (isLiked props) false)
                (onLikeToggle props) st (isOutOfStock p) (isLowStock p)
                (HandleQuickView (onQuickView props) (Product.id p)))
      as [Hd Ht].
    rewrite Hov, Hd, Ht, stock_status_list.
    destruct (isOutOfStock p), (isLowStock p);
      (split; [reflexivity |]);
      (split; [exists "text-sm font-medium "; reflexivity |]);
      repeat split; reflexivity.
  - destruct (overlay_grid p (default_to (isLiked props) false)
                (onLikeToggle props) st (isOutOfStock p) (isLowStock p)
                (HandleQuickView (onQuickView props) (Product.id p)))
      as [Hov _].
    destruct (add_to_cart_grid p (default_to (isLiked props) false)
                (onLikeToggle props) st (isOutOfStock p) (isLowStock p)
                (HandleQuickView (onQuickView props) (Product.id p)))
      as [Hd Ht].
    rewrite Hov, Hd, Ht, stock_status_grid.
    destruct (isOutOfStock p), (isLowStock p);
      (split; [reflexivity |]);
      (split; [exists "text-xs font-medium "; reflexivity |]);
      repeat split; reflexivity.
Qed.

(** The scenario of the spec: a stock of 3 shows "Only 3 left", in the
    orange of the low-stock class, in the grid and in the list. *)
Example stock_3_shows_only_3_left :
  Forall (fun vm =>
    exists tree,
      ProductCard (sample_props (Some sample_product) vm None) false
      = Normal tree
      /\ text_of (Dom.stock_status tree) = Some "Only 3 left"
      /\ (exists size,
            class_of (Dom.stock_status tree)
            = Some (size ++ "text-orange-600")%string))
    [None; Some "grid"; Some "list"].
Proof.
  repeat constructor; eexists;
    (split; [reflexivity |]); (split; [reflexivity |]).
  - exists "text-xs font-medium ". reflexivity.
  - exists "text-xs font-medium ". reflexivity.
  - exists "text-sm font-medium ". reflexivity.
Qed.

(* ------------------------------------------------------------------ *)
(** ** Absent product *)

(** C5. When no product is supplied the card renders nothing and does not
    throw, whatever the view mode, the other props and the state are. *)
Theorem absent_product_renders_nothing :
  forall (l : option bool) (o : option callback) (vm : option string)
         (q : option callback) (st : bool),
    ProductCard {| product := None; isLiked := l; onLikeToggle := o;
                   viewMode := vm; onQuickView := q |} st
    = Normal Nothing.
Proof.
  intros. apply ProductCard_absent. reflexivity.
Qed.

(* ------------------------------------------------------------------ *)
(** ** Quick view *)

Lemma handleQuickView_run onQV pid w :
  handleQuickView onQV pid w =
  (Normal tt,
   {| Card.event := {| defaultPrevented := true; propagationStopped := true |};
      Card.calls := Card.calls w
                    ++ match onQV with
                       | Some f => [Invoke f [VNum pid]]
                       | None => []
                       end;
      Card.imageLoading := Card.imageLoading w;
      Card.mounted := Card.mounted w;
      Card.staleWrites := Card.staleWrites w |}).
Proof.
  destruct onQV; cbn; [reflexivity |].
  rewrite app_nil_r. reflexivity.
Qed.

(** The handler the quick-view control of a rendered card carries. *)
Lemma quick_view_handler props p st tree :
  product props = Some p ->
  ProductCard props st = Normal tree ->
  Dom.handler_of Dom.quick_view Dom.get_onClick tree
  = Some (HandleQuickView (onQuickView props) (Product.id p)).
Proof.
  intros Hp Hr. rewrite (ProductCard_present props p st Hp) in Hr.
  injection Hr as <-.
  destruct (default_to (viewMode props) "grid" =? "list")%string.
  - apply quick_view_list.
  - apply quick_view_grid.
Qed.

(** C3, as amended. For every product and every combination of the
    optional props, in both view modes, activating the quick-view control
    suppresses the default action of the event and stops its propagation;
    when [onQuickView] is supplied it is invoked exactly once, with the
    product's id as its only argument, and when it is omitted no callback
    is invoked. Nothing else changes. *)
Theorem quick_view_prevents_stops_and_notifies :
  forall (p : Product.t) (l : option bool) (o : option callback)
         (vm : option string) (q : option callback) (st : bool)
         (w : Card.world),
    let props := {| product := Some p; isLiked := l; onLikeToggle := o;
                    viewMode := vm; onQuickView := q |} in
    exists tree h w',
      ProductCard props st = Normal tree
      /\ Dom.handler_of Dom.quick_view Dom.get_onClick tree = Some h
      /\ fire h w = (Normal tt, w')
      /\ defaultPrevented (Card.event w') = true
      /\ propagationStopped (Card.event w') = true
      /\ link_navigates (Card.event w') = false
      /\ reaches_ancestors (Card.event w') = false
      /\ Card.calls w'
         = Card.calls w
           ++ match q with
              | Some f => [Invoke f [VNum (Product.id p)]]
              | None => []
              end
      /\ Card.imageLoading w' = Card.imageLoading w
      /\ Card.staleWrites w' = Card.staleWrites w.
Proof.
  intros p l o vm q st w props.
  pose proof (ProductCard_present props p st eq_refl) as Hr.
  eexists. exists (HandleQuickView q (Product.id p)). eexists.
  split; [exact Hr |].
  split; [exact (quick_view_handler props p st _ eq_refl Hr) |].
  split; [apply handleQuickView_run |].
  cbn. repeat split; reflexivity.
Qed.

(** C3 as it is stated fails when [onQuickView] is omitted: the control
    is activated on a card of [sample_product] that was given no callback,
    and no callback at all has been invoked afterwards. *)
Lemma quick_view_without_callback_invokes_nothing :
  let c := card_step ClickQuickView
             (mount_card (sample_props (Some sample_product) None None)) in
  Card.calls (card_world c) = []
  /\ (forall f,
        invocations_of f [VNum (Product.id sample_product)]
          (Card.calls (card_world c)) <> 1%nat)
  /\ defaultPrevented (Card.event (card_world c)) = true
  /\ propagationStopped (Card.event (card_world c)) = true.
Proof.
  cbv zeta. split; [reflexivity |]. split; [| split; reflexivity].
  intros f. cbn. discriminate.
Qed.

(* ------------------------------------------------------------------ *)
(** ** View mode *)

Lemma list_mode_iff (vm : option string) :
  (default_to vm "grid" =? "list")%string = true <-> vm = Some "list".
Proof.
  destruct vm as [v |]; cbn.
  - rewrite String.eqb_eq. split; [intros -> | intros [= ->]]; reflexivity.
  - split; discriminate.
Qed.

Lemma branches_differ props p st props' p' st' :
  list_branch props p st <> grid_branch props' p' st'.
Proof. unfold list_branch, grid_branch, list_view, grid_view. discriminate. Qed.

(** C10, as amended. Whenever a product is supplied, the list branch is
    rendered if and only if [viewMode] is exactly the string 'list'; for
    every other value, and when the prop is omitted (it then defaults to
    'grid'), the grid branch is rendered; the render is one of the two
    branches and the two are never the same tree. When the product is
    absent neither branch is produced. *)
Theorem view_mode_selects_one_branch :
  forall (p : Product.t) (l : option bool) (o : option callback)
         (vm : option string) (q : option callback) (st : bool),
    let props := {| product := Some p; isLiked := l; onLikeToggle := o;
                    viewMode := vm; onQuickView := q |} in
    let absent := {| product := None; isLiked := l; onLikeToggle := o;
                     viewMode := vm; onQuickView := q |} in
    (ProductCard props st = Normal (list_branch props p st)
     <-> vm = Some "list")
    /\ (ProductCard props st = Normal (grid_branch props p st)
        <-> vm <> Some "list")
    /\ (vm = None -> ProductCard props st = Normal (grid_branch props p st))
    /\ list_branch props p st <> grid_branch props p st
    /\ ProductCard absent st = Normal Nothing
    /\ Nothing <> list_branch absent p st
    /\ Nothing <> grid_branch absent p st.
Proof.
  intros p l o vm q st props absent.
  pose proof (ProductCard_present props p st eq_refl) as Hr.
  pose proof (list_mode_iff vm) as Hm.
  pose proof (branches_differ props p st props p st) as Hd.
  change (viewMode props) with vm in Hr.
  assert (Hgrid : vm <> Some "list" ->
                  ProductCard props st = Normal (grid_branch props p st)).
  { intros Hne. rewrite Hr.
    destruct (default_to vm "grid" =? "list")%string; [| reflexivity].
    exfalso. apply Hne, Hm. reflexivity. }
  repeat split.
  - intros H. rewrite Hr in H.
    destruct (default_to vm "grid" =? "list")%string.
    + apply Hm. reflexivity.
    + apply Normal_inj in H. symmetry in H. contradiction.
  - intros H. apply Hm in H. rewrite Hr, H. reflexivity.
  - intros H Hl. apply Hm in Hl. rewrite Hr, Hl in H.
    apply Normal_inj in H. contradiction.
  - exact Hgrid.
  - intros ->. apply Hgrid. discriminate.
  - exact Hd.
  - discriminate.
  - discriminate.
Qed.

(** C10 as it is stated fails on a render without a product: [viewMode]
    is exactly 'list', and the render is neither the list branch nor the
    grid branch of any product. *)
Lemma list_mode_without_product_renders_no_branch :
  let props := sample_props None (Some "list") None in
  viewMode props = Some "list"
  /\ ProductCard props true = Normal Nothing
  /\ (forall p, ProductCard props true <> Normal (list_branch props p true))
  /\ (forall p, ProductCard props true <> Normal (grid_branch props p true)).
Proof.
  cbv zeta. repeat split; intros p; discriminate.
Qed.

(* ------------------------------------------------------------------ *)
(** ** Missing category *)

(** C6, as amended. For every product without a category the category
    line shows one fixed fallback string, the literal 'Ангилалгүй', the
    same in both view modes, and the render does not throw. *)
Theorem missing_category_shows_the_fallback :
  forall (p : Product.t) (l : option bool) (o : option callback)
         (vm : option string) (q : option callback) (st : bool),
    Product.category p = None ->
    exists tree,
      ProductCard {| product := Some p; isLiked := l; onLikeToggle := o;
                     viewMode := vm; onQuickView := q |} st
      = Normal tree
      /\ text_of (Dom.category_label tree) = Some "Ангилалгүй".
Proof.
  intros p l o vm q st Hc.
  set (props := {| product := Some p; isLiked := l; onLikeToggle := o;
                   viewMode := vm; onQuickView := q |}).
  rewrite (ProductCard_present props p st eq_refl).
  unfold list_branch, grid_branch.
  destruct (default_to (viewMode props) "grid" =? "list")%string;
    eexists; (split; [reflexivity |]).
  - rewrite category_label_list, Hc. reflexivity.
  - rewrite category_label_grid, Hc. reflexivity.
Qed.

Lemma missing_category_shows_the_fallback_witness :
  Product.category sample_product = None
  /\ exists tree,
      ProductCard {| product := Some sample_product; isLiked := None;
                     onLikeToggle := None; viewMode := Some "list";
                     onQuickView := None |} true
      = Normal tree
      /\ text_of (Dom.category_label tree) = Some "Ангилалгүй".
Proof.
  split; [reflexivity |].
  apply (missing_category_shows_the_fallback
           sample_product None None (Some "list") None true).
  reflexivity.
Defined.

(** C6 as it is stated fails on the text of the label: for
    [sample_product], which has no category, the category line is not the
    string "uncategorized", in the grid and in the list. *)
Lemma fallback_label_is_not_the_word_uncategorized :
  Forall (fun vm =>
    exists tree,
      ProductCard (sample_props (Some sample_product) vm None) true
      = Normal tree
      /\ text_of (Dom.category_label tree) = Some "Ангилалгүй"
      /\ text_of (Dom.category_label tree) <> Some "uncategorized")
    [Some "grid"; Some "list"].
Proof.
  repeat constructor; eexists;
    (split; [reflexivity |]); (split; [reflexivity | discriminate]).
Qed.

(* ------------------------------------------------------------------ *)
(** ** Loading the catalog *)

Lemma fetch_not_ok fetch res w :
  fetch "/api/product" = Fulfilled res ->
  ok res = false ->
  fetchFeaturedProducts fetch w =
  (Normal tt,
   {| Page.products := Page.products w;
      Page.console := Page.console w ++ ["Product fetch error"];
      Page.mounted := Page.mounted w;
      Page.staleWrites := Page.staleWrites w |}).
Proof.
  intros Hf Hok. unfold fetchFeaturedProducts, bind.
  rewrite Hf. cbn. rewrite Hok. reflexivity.
Qed.

Lemma fetch_ok fetch res data w :
  fetch "/api/product" = Fulfilled res ->
  ok res = true ->
  json res = Fulfilled data ->
  fetchFeaturedProducts fetch w =
  (Normal tt,
   if Page.mounted w
   then {| Page.products := data;
           Page.console := Page.console w;
           Page.mounted := Page.mounted w;
           Page.staleWrites := Page.staleWrites w |}
   else {| Page.products := Page.products w;
           Page.console := Page.console w;
           Page.mounted := Page.mounted w;
           Page.staleWrites := S (Page.staleWrites w) |}).
Proof.
  intros Hf Hok Hj. unfold fetchFeaturedProducts, bind.
  rewrite Hf. cbn. rewrite Hok, Hj. reflexivity.
Qed.

(** With a request that comes back with a non-success status, no step of
    the page changes [products] or drops a rejection. *)
Lemma page_step_not_ok fetch res ev pg :
  fetch "/api/product" = Fulfilled res ->
  ok res = false ->
  Page.products (page_world (page_step fetch ev pg))
  = Page.products (page_world pg)
  /\ unhandled (page_step fetch ev pg) = unhandled pg
  /\ Page.staleWrites (page_world (page_step fetch ev pg))
     = Page.staleWrites (page_world pg).
Proof.
  intros Hf Hok. destruct ev; cbn.
  - destruct (pending pg); [| repeat split; reflexivity].
    rewrite (fetch_not_ok fetch res _ Hf Hok). repeat split; reflexivity.
  - repeat split; reflexivity.
Qed.

Lemma page_run_not_ok fetch res evs pg :
  fetch "/api/product" = Fulfilled res ->
  ok res = false ->
  Page.products (page_world (page_run fetch evs pg))
  = Page.products (page_world pg)
  /\ unhandled (page_run fetch evs pg) = unhandled pg
  /\ Page.staleWrites (page_world (page_run fetch evs pg))
     = Page.staleWrites (page_world pg).
Proof.
  intros Hf Hok. revert pg.
  induction evs as [| ev evs IH]; intros pg; cbn.
  - repeat split; reflexivity.
  - destruct (IH (page_step fetch ev pg)) as (Hp & Hu & Hs).
    destruct (page_step_not_ok fetch res ev pg Hf Hok) as (Hp' & Hu' & Hs').
    unfold page_run in Hp, Hu, Hs.
    rewrite Hp, Hu, Hs, Hp', Hu', Hs'. repeat split; reflexivity.
Qed.

(** C4. When the product-listing request resolves with a non-success
    status, [fetchFeaturedProducts] does not touch the state: it completes
    normally, its only effect is one diagnostic on the console, and
    [products] is what it was. On the page, from its mount on and whatever
    happens, the catalog stays the empty sequence, no card is rendered and
    no rejection is left unhandled. *)
Theorem failed_fetch_leaves_the_catalog_empty :
  forall (fetch : string -> settled Response) (res : Response),
    fetch "/api/product" = Fulfilled res ->
    ok res = false ->
    (forall w,
        fetchFeaturedProducts fetch w =
        (Normal tt,
         {| Page.products := Page.products w;
            Page.console := Page.console w ++ ["Product fetch error"];
            Page.mounted := Page.mounted w;
            Page.staleWrites := Page.staleWrites w |}))
    /\ Page.console (page_world (page_step fetch FetchSettles mount_page))
       = ["Product fetch error"]
    /\ (forall evs,
          let pg := page_run fetch evs mount_page in
          Page.products (page_world pg) = []
          /\ Dom.find_all Dom.is_card (page_render pg) = []
          /\ featured_section (page_render pg) = []
          /\ all_products_section (page_render pg) = []
          /\ unhandled pg = []
          /\ Page.staleWrites (page_world pg) = 0%nat).
Proof.
  intros fetch res Hf Hok.
  split; [intros w; apply (fetch_not_ok fetch res w Hf Hok) |].
  split.
  - cbn. rewrite (fetch_not_ok fetch res _ Hf Hok). reflexivity.
  - intros evs pg.
    destruct (page_run_not_ok fetch res evs mount_page Hf Hok)
      as (Hp & Hu & Hs).
    fold pg in Hp, Hu, Hs. cbn in Hp, Hu, Hs.
    unfold page_render. rewrite Hp.
    repeat split; assumption || reflexivity.
Qed.

Lemma failed_fetch_leaves_the_catalog_empty_witness :
  failing_fetch "/api/product"
  = Fulfilled {| ok := false; json := Rejected "Unexpected end of JSON input" |}
  /\ Page.console (page_world (page_step failing_fetch FetchSettles mount_page))
     = ["Product fetch error"]
  /\ Page.products
       (page_world (page_run failing_fetch [FetchSettles; UnmountPage] mount_page))
     = [].
Proof.
  split; [reflexivity |].
  destruct (failed_fetch_leaves_the_catalog_empty failing_fetch
              {| ok := false; json := Rejected "Unexpected end of JSON input" |}
              eq_refl eq_refl) as (_ & Hc & Hrun).
  split; [exact Hc |].
  exact (proj1 (Hrun [FetchSettles; UnmountPage])).
Defined.

(* ------------------------------------------------------------------ *)
(** ** The two sections of the page *)

Lemma page_card_renders_grid p st :
  ProductCard (page_card_props p) st
  = Normal (grid_branch (page_card_props p) p st).
Proof.
  rewrite (ProductCard_present (page_card_props p) p st eq_refl).
  reflexivity.
Qed.

(** C7. Whatever the catalog state is, the "featured" section and the
    "all products" section hold the same cards: the same elements, one per
    product, in the order of [products], each keyed by its product's id and
    in grid mode, which is the section as the spec words it; and each card
    renders the grid branch. *)
Theorem featured_and_all_sections_are_equal :
  forall (products : list Product.t),
    let tree := HomePage products in
    featured_section tree = all_products_section tree
    /\ map card_summary (featured_section tree) = section_spec products
    /\ map card_summary (all_products_section tree) = section_spec products
    /\ List.length (featured_section tree) = List.length products
    /\ map render_at_mount (featured_section tree)
       = map (fun p => Normal (grid_branch (page_card_props p) p
                                 imageLoading_initial)) products
    /\ map render_at_mount (all_products_section tree)
       = map render_at_mount (featured_section tree).
Proof.
  intros products tree.
  assert (Hf : featured_section tree = map card_of products) by reflexivity.
  assert (Ha : all_products_section tree = map card_of products)
    by reflexivity.
  rewrite Ha, Hf.
  split; [reflexivity |].
  assert (Hs : map card_summary (map card_of products)
               = section_spec products).
  { rewrite map_map. unfold section_spec. apply map_ext.
    intros p. reflexivity. }
  split; [exact Hs |]. split; [exact Hs |].
  split; [apply length_map |].
  split; [| reflexivity].
  rewrite map_map. apply map_ext. intros p.
  apply page_card_renders_grid.
Qed.

(* ------------------------------------------------------------------ *)
(** ** The like control and the handlers of a card *)

Lemma like_handler props p st tree :
  product props = Some p ->
  ProductCard props st = Normal tree ->
  Dom.handler_of Dom.like_control Dom.get_onClick tree
  = Some (PropCallback (onLikeToggle props)).
Proof.
  intros Hp Hr. rewrite (ProductCard_present props p st Hp) in Hr.
  apply Normal_inj in Hr. subst tree.
  destruct (default_to (viewMode props) "grid" =? "list")%string.
  - apply like_control_list.
  - apply like_control_grid.
Qed.

Lemma image_handler props p st tree :
  product props = Some p ->
  ProductCard props st = Normal tree ->
  Dom.handler_of Dom.image Dom.get_onLoad tree = Some SetImageLoadingFalse.
Proof.
  intros Hp Hr. rewrite (ProductCard_present props p st Hp) in Hr.
  apply Normal_inj in Hr. subst tree.
  destruct (default_to (viewMode props) "grid" =? "list")%string.
  - apply image_list.
  - apply image_grid.
Qed.

(** X1. In both view modes the like control is rendered whether or not
    [onLikeToggle] is supplied. Activating it hands the click event to
    [onLikeToggle], once, when the callback is supplied, and does nothing
    when it is omitted; it never prevents the default action, never stops
    the propagation and never touches [imageLoading]. *)
Theorem like_click_hands_the_event_to_the_parent :
  forall (p : Product.t) (l : option bool) (o : option callback)
         (vm : option string) (q : option callback) (st : bool)
         (w : Card.world),
    let props := {| product := Some p; isLiked := l; onLikeToggle := o;
                    viewMode := vm; onQuickView := q |} in
    exists tree w',
      ProductCard props st = Normal tree
      /\ is_present (Dom.like_control tree) = true
      /\ Dom.handler_of Dom.like_control Dom.get_onClick tree
         = Some (PropCallback o)
      /\ fire (PropCallback o) w = (Normal tt, w')
      /\ Card.calls w'
         = Card.calls w
           ++ match o with
              | Some f => [Invoke f [VEvent]]
              | None => []
              end
      /\ Card.event w' = Card.event w
      /\ Card.imageLoading w' = Card.imageLoading w
      /\ Card.staleWrites w' = Card.staleWrites w.
Proof.
  intros p l o vm q st w props.
  pose proof (ProductCard_present props p st eq_refl) as Hr.
  pose proof (like_handler props p st _ eq_refl Hr) as Hh.
  eexists. exists (snd (fire (PropCallback o) w)).
  split; [exact Hr |].
  split.
  { unfold Dom.handler_of in Hh.
    destruct (Dom.like_control _); [reflexivity | discriminate]. }
  split; [exact Hh |].
  destruct o as [f |]; cbn.
  - repeat split; reflexivity.
  - rewrite app_nil_r. repeat split; reflexivity.
Qed.

(** X2. A rendered card carries exactly three handlers: the image's
    [onLoad], the quick-view click and the like click. The add-to-cart
    control has no click handler, in stock or out of stock. *)
Theorem card_carries_three_handlers_and_none_on_add_to_cart :
  forall (p : Product.t) (l : option bool) (o : option callback)
         (vm : option string) (q : option callback) (st : bool),
    let props := {| product := Some p; isLiked := l; onLikeToggle := o;
                    viewMode := vm; onQuickView := q |} in
    exists tree,
      ProductCard props st = Normal tree
      /\ handlers_in tree
         = (if (default_to vm "grid" =? "list")%string
            then [SetImageLoadingFalse;
                  PropCallback o;
                  HandleQuickView q (Product.id p)]
            else [SetImageLoadingFalse;
                  HandleQuickView q (Product.id p);
                  PropCallback o])
      /\ is_present (Dom.add_to_cart tree) = true
      /\ Dom.handler_of Dom.add_to_cart Dom.get_onClick tree = None.
Proof.
  intros p l o vm q st props.
  rewrite (ProductCard_present props p st eq_refl).
  change (viewMode props) with vm.
  unfold list_branch, grid_branch.
  destruct (default_to vm "grid" =? "list")%string;
    eexists; (split; [reflexivity |]);
    destruct st, (isOutOfStock p); repeat split; reflexivity.
Qed.

(* ------------------------------------------------------------------ *)
(** ** What the parent hears along the life of a card *)

Lemma dispatch_absent part get c :
  product (card_props c) = None ->
  part Nothing = None ->
  dispatch part get c = c.
Proof.
  intros Hp Hn. unfold dispatch.
  rewrite (ProductCard_absent _ _ Hp). unfold Dom.handler_of.
  rewrite Hn. reflexivity.
Qed.

Lemma dispatch_present part get c p h :
  product (card_props c) = Some p ->
  (forall tree,
      ProductCard (card_props c) (Card.imageLoading (card_world c))
      = Normal tree ->
      Dom.handler_of part get tree = Some h) ->
  dispatch part get c =
  {| card_props := card_props c;
     card_world := snd (fire h (Card.with_event fresh_event (card_world c))) |}.
Proof.
  intros Hp Hh. unfold dispatch.
  pose proof (ProductCard_present (card_props c) p
                (Card.imageLoading (card_world c)) Hp) as Hr.
  rewrite Hr. rewrite (Hh _ Hr). reflexivity.
Qed.

Lemma card_step_calls ev c :
  Card.calls (card_world (card_step ev c))
  = Card.calls (card_world c) ++ notified (card_props c) ev
  /\ card_props (card_step ev c) = props_after (card_props c) ev.
Proof.
  unfold notified.
  destruct (product (card_props c)) as [p |] eqn:Hp.
  - destruct ev; cbn [card_step props_after].
    + rewrite (dispatch_present _ _ c p
                 (HandleQuickView (onQuickView (card_props c)) (Product.id p)) Hp)
        by (intros tree Hr; exact (quick_view_handler _ p _ tree Hp Hr)).
      cbn [card_world card_props fire].
      rewrite handleQuickView_run. cbn.
      destruct (onQuickView (card_props c)); split; reflexivity.
    + rewrite (dispatch_present _ _ c p
                 (PropCallback (onLikeToggle (card_props c))) Hp)
        by (intros tree Hr; exact (like_handler _ p _ tree Hp Hr)).
      cbn [card_world card_props].
      destruct (onLikeToggle (card_props c)); cbn;
        rewrite ?app_nil_r; split; reflexivity.
    + rewrite (dispatch_present _ _ c p SetImageLoadingFalse Hp)
        by (intros tree Hr; exact (image_handler _ p _ tree Hp Hr)).
      cbn. destruct (Card.mounted (card_world c)); cbn;
        rewrite app_nil_r; split; reflexivity.
    + cbn. rewrite app_nil_r. split; reflexivity.
    + cbn. rewrite app_nil_r. split; reflexivity.
  - destruct ev; cbn [card_step props_after];
      rewrite ?(dispatch_absent _ _ c Hp eq_refl);
      cbn; rewrite app_nil_r; split; reflexivity.
Qed.

Lemma card_run_calls evs :
  forall c,
    Card.calls (card_world (card_run evs c))
    = Card.calls (card_world c) ++ expected_calls (card_props c) evs.
Proof.
  induction evs as [| ev evs IH]; intros c.
  - cbn. rewrite app_nil_r. reflexivity.
  - change (card_run (ev :: evs) c) with (card_run evs (card_step ev c)).
    rewrite IH. destruct (card_step_calls ev c) as [Hc Hp].
    rewrite Hc, Hp. cbn [expected_calls]. rewrite app_assoc. reflexivity.
Qed.

(** X3. Along any life of a card, re-renders with new props and the
    unmount included, the parent hears exactly this, in order: one
    [onQuickView(product.id)] per click on the quick-view control and one
    [onLikeToggle(event)] per click on the like control, each with the
    callback and the product of the props in force at the click, and
    nothing for an omitted callback, for a card without a product, or for an
    image load. *)
Theorem card_reports_each_click_with_the_props_in_force :
  forall (props : ProductCardProps) (evs : list card_event),
    Card.calls (card_world (card_run evs (mount_card props)))
    = expected_calls props evs.
Proof.
  intros props evs. rewrite card_run_calls. reflexivity.
Qed.

(** X4. On a mounted card a second completion signal of the image changes
    nothing: handling [ImageLoaded] twice leaves the card as handling it
    once does, and it notifies no one. *)
Theorem image_load_signal_is_idempotent :
  forall (c : CardInstance),
    Card.mounted (card_world c) = true ->
    card_step ImageLoaded (card_step ImageLoaded c)
    = card_step ImageLoaded c
    /\ Card.calls (card_world (card_step ImageLoaded c))
       = Card.calls (card_world c).
Proof.
  intros c Hm.
  split.
  - cbn [card_step].
    destruct (product (card_props c)) as [p |] eqn:Hp.
    + rewrite (dispatch_present _ _ c p SetImageLoadingFalse Hp)
        by (intros tree Hr; exact (image_handler _ p _ tree Hp Hr)).
      set (c1 := {| card_props := card_props c; card_world := _ |}).
      rewrite (dispatch_present _ _ c1 p SetImageLoadingFalse Hp)
        by (intros tree Hr; exact (image_handler _ p _ tree Hp Hr)).
      subst c1. cbn. rewrite Hm. reflexivity.
    + rewrite (dispatch_absent _ _ c Hp eq_refl).
      apply (dispatch_absent _ _ c Hp eq_refl).
  - destruct (card_step_calls ImageLoaded c) as [Hc _].
    rewrite Hc. unfold notified.
    destruct (product (card_props c)); apply app_nil_r.
Qed.

Lemma image_load_signal_is_idempotent_witness :
  let c := mount_card (sample_props (Some sample_product) None None) in
  Card.mounted (card_world c) = true
  /\ card_step ImageLoaded (card_step ImageLoaded c)
     = card_step ImageLoaded c.
Proof.
  cbv zeta. split; [reflexivity |].
  exact (proj1 (image_load_signal_is_idempotent
                  (mount_card (sample_props (Some sample_product) None None))
                  eq_refl)).
Defined.

(* ------------------------------------------------------------------ *)
(** ** The links of a card *)



(** X6. In both view modes the three controls of a card (quick view, like,
    add to cart) are outside its links: no button is a descendant of a
    link, and the card has exactly these three buttons. *)
Theorem card_controls_are_outside_the_links :
  forall (p : Product.t) (l : option bool) (o : option callback)
         (vm : option string) (q : option callback) (st : bool),
    let props := {| product := Some p; isLiked := l; onLikeToggle := o;
                    viewMode := vm; onQuickView := q |} in
    exists tree qv lk cart,
      ProductCard props st = Normal tree
      /\ flat_map buttons_of (links_of tree) = []
      /\ Dom.quick_view tree = Some qv
      /\ Dom.like_control tree = Some lk
      /\ Dom.add_to_cart tree = Some cart
      /\ (forall b, In b (buttons_of tree) <-> b = qv \/ b = lk \/ b = cart)
      /\ List.length (buttons_of tree) = 3%nat.
Proof.
  intros p l o vm q st props.
  rewrite (ProductCard_present props p st eq_refl).
  unfold list_branch, grid_branch.
  destruct (default_to (viewMode props) "grid" =? "list")%string;
    destruct st, (isOutOfStock p);
    do 4 eexists;
    (split; [reflexivity |]); (split; [reflexivity |]);
    (split; [reflexivity |]); (split; [reflexivity |]);
    (split; [reflexivity |]); (split; [| reflexivity]);
    intros b; cbn; intuition congruence.
Qed.

(* ------------------------------------------------------------------ *)
(** ** The image while it loads *)

(** X7. In both view modes the placeholder is rendered exactly while
    [imageLoading] holds, and the image, whose source is [imageUrl] and whose
    alternative text is the product's name, is always rendered: fully
    transparent while loading and opaque once loaded. *)
Theorem image_is_hidden_behind_a_placeholder_while_loading :
  forall (p : Product.t) (l : option bool) (o : option callback)
         (vm : option string) (q : option callback) (st : bool),
    let props := {| product := Some p; isLiked := l; onLikeToggle := o;
                    viewMode := vm; onQuickView := q |} in
    exists tree img,
      ProductCard props st = Normal tree
      /\ is_present (spinner_of tree) = st
      /\ Dom.image tree = Some img
      /\ get_src (Dom.attrs_of img) = Some (Product.imageUrl p)
      /\ get_alt (Dom.attrs_of img) = Some (Product.name p)
      /\ Dom.get_className (Dom.attrs_of img)
         = Some ("object-cover transition-opacity duration-200 "
                 ++ (if st then "opacity-0" else "opacity-100"))%string.
Proof.
  intros p l o vm q st props.
  rewrite (ProductCard_present props p st eq_refl).
  unfold list_branch, grid_branch.
  destruct (default_to (viewMode props) "grid" =? "list")%string;
    destruct st, (isOutOfStock p);
    do 2 eexists; repeat split; reflexivity.
Qed.

(* ------------------------------------------------------------------ *)
(** ** The fields of the product a card shows *)

(** X8. In both view modes the category line of a product that has a
    category is the category's name as it is, the empty name included (the
    fallback stands in for an absent category only); the category's id
    plays no part. *)
Theorem present_category_shows_its_name :
  forall (p : Product.t) (c : Category.t) (l : option bool)
         (o : option callback) (vm : option string) (q : option callback)
         (st : bool),
    let props := {| product := Some (with_category (Some c) p);
                    isLiked := l; onLikeToggle := o;
                    viewMode := vm; onQuickView := q |} in
    exists tree,
      ProductCard props st = Normal tree
      /\ text_of (Dom.category_label tree) = Some (Category.name c)
      /\ forall cid,
          ProductCard
            {| product :=
                 Some (with_category
                         (Some {| Category.id := cid;
                                  Category.name := Category.name c |}) p);
               isLiked := l; onLikeToggle := o;
               viewMode := vm; onQuickView := q |} st
          = Normal tree.
Proof.
  intros p c l o vm q st props.
  rewrite (ProductCard_present props _ st eq_refl).
  change (viewMode props) with vm.
  destruct (default_to vm "grid" =? "list")%string eqn:Emode;
    eexists; (split; [reflexivity |]).
  - split; [apply category_label_list |]. intros cid.
    unfold ProductCard. cbn [product viewMode not_ deref].
    rewrite Emode. reflexivity.
  - split; [apply category_label_grid |]. intros cid.
    unfold ProductCard. cbn [product viewMode not_ deref].
    rewrite Emode. reflexivity.
Qed.

Lemma description_list p l o st out low h :
  text_of (description_of (list_view p l o st out low h))
  = Some (Product.description p).
Proof. by_shape st out. Qed.

Lemma description_grid p l o st out low h :
  description_of (grid_view p l o st out low h) = None.
Proof. by_shape st out. Qed.

(** X9. The list branch shows the product's description; the grid branch
    has no description paragraph and does not read the description at all:
    its render is the same whatever the description is. *)
Theorem description_is_shown_in_the_list_only :
  forall (p : Product.t) (d : string) (l : option bool)
         (o : option callback) (q : option callback) (st : bool),
    let in_list := {| product := Some p; isLiked := l; onLikeToggle := o;
                      viewMode := Some "list"; onQuickView := q |} in
    let in_grid (p0 : Product.t) :=
      {| product := Some p0; isLiked := l; onLikeToggle := o;
         viewMode := Some "grid"; onQuickView := q |} in
    (exists tree,
        ProductCard in_list st = Normal tree
        /\ text_of (description_of tree) = Some (Product.description p))
    /\ (exists tree,
          ProductCard (in_grid p) st = Normal tree
          /\ description_of tree = None
          /\ ProductCard (in_grid (with_description d p)) st = Normal tree).
Proof.
  intros p d l o q st in_list in_grid.
  split; eexists.
  - split; [reflexivity |]. apply description_list.
  - split; [reflexivity |]. split; [apply description_grid | reflexivity].
Qed.

(** X10. A card never reads the timestamps of its product: in both view
    modes the render is the same whatever [createdAt] and [updatedAt]
    are, dates or strings. *)
Theorem render_ignores_the_timestamps :
  forall (p : Product.t) (created updated : timestamp) (l : option bool)
         (o : option callback) (vm : option string) (q : option callback)
         (st : bool),
    ProductCard {| product := Some (with_timestamps created updated p);
                   isLiked := l; onLikeToggle := o;
                   viewMode := vm; onQuickView := q |} st
    = ProductCard {| product := Some p; isLiked := l; onLikeToggle := o;
                     viewMode := vm; onQuickView := q |} st.
Proof.
  intros. unfold ProductCard. cbn.
  destruct (default_to vm "grid" =? "list")%string; reflexivity.
Qed.

Lemma like_icon_list p l o st out low h :
  like_icon_of (list_view p l o st out low h)
  = Some (Elem "LikeButton" [isLikedAttr l] []).
Proof. by_shape st out. Qed.

Lemma like_icon_grid p l o st out low h :
  like_icon_of (grid_view p l o st out low h)
  = Some (Elem "LikeButton" [isLikedAttr l] []).
Proof. by_shape st out. Qed.

(** X11. Omitted props behave as their defaults passed explicitly: a card
    given no [isLiked] and no [viewMode] renders exactly as one given
    [isLiked = false] and [viewMode = 'grid']. In both view modes the like
    icon is told the value of [isLiked], "not liked" when it is omitted. *)
Theorem omitted_props_render_as_their_defaults :
  forall (p : Product.t) (l : option bool) (o : option callback)
         (vm : option string) (q : option callback) (st : bool),
    let omitted := {| product := Some p; isLiked := None; onLikeToggle := o;
                      viewMode := None; onQuickView := q |} in
    let explicit := {| product := Some p; isLiked := Some false;
                       onLikeToggle := o; viewMode := Some "grid";
                       onQuickView := q |} in
    let props := {| product := Some p; isLiked := l; onLikeToggle := o;
                    viewMode := vm; onQuickView := q |} in
    ProductCard omitted st = ProductCard explicit st
    /\ exists tree icon,
        ProductCard props st = Normal tree
        /\ like_icon_of tree = Some icon
        /\ get_isLiked (Dom.attrs_of icon)
           = Some (match l with Some b => b | None => false end).
Proof.
  intros p l o vm q st omitted explicit props.
  split; [reflexivity |].
  rewrite (ProductCard_present props p st eq_refl).
  unfold list_branch, grid_branch.
  destruct (default_to (viewMode props) "grid" =? "list")%string;
    do 2 eexists; (split; [reflexivity |]).
  - rewrite like_icon_list. split; [reflexivity |]. destruct l; reflexivity.
  - rewrite like_icon_grid. split; [reflexivity |]. destruct l; reflexivity.
Qed.

(* ------------------------------------------------------------------ *)
(** ** The catalog request: success and failure without a status *)

Lemma fetch_rejected fetch reason w :
  fetch_fails fetch reason ->
  fetchFeaturedProducts fetch w = (Throw reason, w).
Proof.
  unfold fetch_fails, catalog_url.
  intros [Hf | (res & Hf & Hok & Hj)];
    unfold fetchFeaturedProducts, bind; rewrite Hf; cbn.
  - reflexivity.
  - rewrite Hok, Hj. reflexivity.
Qed.

(** X13. When the request itself fails, or the body of a successful
    response does not parse, [fetchFeaturedProducts] rejects with that
    reason and has touched nothing: no state write, no console line. The
    effect drops the promise, so on the page the rejection is left
    unhandled and the catalog stays as it was. *)
Theorem failed_request_rejects_and_is_left_unhandled :
  forall (fetch : string -> settled Response) (reason : string)
         (pg : PageInstance),
    fetch_fails fetch reason ->
    pending pg = true ->
    (forall w, fetchFeaturedProducts fetch w = (Throw reason, w))
    /\ page_world (page_step fetch FetchSettles pg) = page_world pg
    /\ unhandled (page_step fetch FetchSettles pg) = unhandled pg ++ [reason]
    /\ pending (page_step fetch FetchSettles pg) = false.
Proof.
  intros fetch reason pg Hfail Hpend.
  split; [intros w; apply fetch_rejected; exact Hfail |].
  cbn. rewrite Hpend, (fetch_rejected fetch reason _ Hfail).
  repeat split; reflexivity.
Qed.

Lemma failed_request_rejects_and_is_left_unhandled_witness :
  fetch_fails unparsable_fetch "Unexpected token"
  /\ fetch_fails unreachable_fetch "Failed to fetch"
  /\ pending mount_page = true
  /\ unhandled (page_step unparsable_fetch FetchSettles mount_page)
     = ["Unexpected token"]
  /\ unhandled (page_step unreachable_fetch FetchSettles mount_page)
     = ["Failed to fetch"].
Proof.
  assert (H1 : fetch_fails unparsable_fetch "Unexpected token").
  { right. eexists. repeat split; reflexivity. }
  assert (H2 : fetch_fails unreachable_fetch "Failed to fetch").
  { left. reflexivity. }
  split; [exact H1 |]. split; [exact H2 |]. split; [reflexivity |].
  split.
  - exact (proj1 (proj2 (proj2
      (failed_request_rejects_and_is_left_unhandled
         unparsable_fetch "Unexpected token" mount_page H1 eq_refl)))).
  - exact (proj1 (proj2 (proj2
      (failed_request_rejects_and_is_left_unhandled
         unreachable_fetch "Failed to fetch" mount_page H2 eq_refl)))).
Defined.

(* ------------------------------------------------------------------ *)
(** ** The composition of the page *)

Lemma NoDup_map_Some {A : Type} (l : list A) :
  NoDup (map Some l) <-> NoDup l.
Proof.
  split; [apply NoDup_map_inv |].
  induction 1 as [| x l Hx Hl IH]; cbn; constructor; [| exact IH].
  rewrite in_map_iff. intros (y & [= ->] & Hin). contradiction.
Qed.

Lemma cards_of_a_section ps :
  flat_map (Dom.find_all Dom.is_card) (map card_of ps) = map card_of ps.
Proof.
  induction ps as [| p ps IH]; [reflexivity |].
  cbn [map flat_map]. rewrite IH. reflexivity.
Qed.

Lemma cards_of_the_page products :
  Dom.find_all Dom.is_card (HomePage products)
  = map card_of products ++ map card_of products.
Proof.
  unfold HomePage.
  cbn [Dom.find_all Dom.is_card flat_map app].
  rewrite !cards_of_a_section, !app_nil_r. reflexivity.
Qed.

(** X15. Whatever the catalog is, the page shows the slider and the
    category strip (in its "row" layout), and every product exactly twice:
    the card elements of the page are those of the "featured" section
    followed by those of the "all products" section and nothing else, two
    per product. Inside a section the keys are the products' ids in order,
    so they are distinct exactly when the ids are. *)
Theorem page_shows_every_product_twice :
  forall (products : list Product.t),
    let tree := HomePage products in
    Dom.find_all Dom.is_card tree
    = featured_section tree ++ all_products_section tree
    /\ List.length (Dom.find_all Dom.is_card tree)
       = (2 * List.length products)%nat
    /\ map card_key (featured_section tree)
       = map (fun p => Some (Product.id p)) products
    /\ (NoDup (map card_key (featured_section tree))
        <-> NoDup (map Product.id products))
    /\ Dom.find_all (Dom.is_tag "Slider") tree = [Elem "Slider" [] []]
    /\ Dom.find_all (Dom.is_tag "Category") tree
       = [Elem "Category" [layout "row"] []].
Proof.
  intros products tree.
  assert (Hf : featured_section tree = map card_of products) by reflexivity.
  assert (Ha : all_products_section tree = map card_of products)
    by reflexivity.
  assert (Hk : map card_key (map card_of products)
               = map (fun p => Some (Product.id p)) products).
  { rewrite map_map. apply map_ext. intros p. reflexivity. }
  rewrite Hf, Ha. subst tree. rewrite cards_of_the_page.
  split; [reflexivity |].
  split; [rewrite length_app, !length_map; lia |].
  split; [exact Hk |].
  split.
  { rewrite Hk, <- (map_map Product.id Some). apply NoDup_map_Some. }
  assert (Hnone : forall t ps,
             flat_map (Dom.find_all (Dom.is_tag t)) (map card_of ps) = []).
  { intros t ps. induction ps as [| p ps IH]; [reflexivity |].
    cbn [map flat_map]. rewrite IH. reflexivity. }
  split; unfold HomePage;
    cbn [Dom.find_all Dom.is_tag flat_map app String.eqb Ascii.eqb Bool.eqb];
    rewrite !Hnone; reflexivity.
Qed.

(* ------------------------------------------------------------------ *)
(** ** A render never throws *)

(** X16. For every combination of props and either value of the state
    a render completes normally, and it is the empty render exactly when
    no product was supplied. *)
Theorem render_completes_and_is_empty_only_without_product :
  forall (props : ProductCardProps) (st : bool),
    exists tree,
      ProductCard props st = Normal tree
      /\ (tree = Nothing <-> product props = None).
Proof.
  intros props st.
  destruct (product props) as [p |] eqn:Hp.
  - rewrite (ProductCard_present props p st Hp).
    eexists. split; [reflexivity |].
    split; [| discriminate].
    unfold list_branch, grid_branch, list_view, grid_view.
    destruct (default_to (viewMode props) "grid" =? "list")%string;
      discriminate.
  - rewrite (ProductCard_absent props st Hp).
    exists Nothing. split; [reflexivity |]. split; reflexivity.
Qed.

(* ------------------------------------------------------------------ *)
(** ** The cards of the page *)

Lemma expected_calls_unwired p evs :
  (forall props', ~ In (Rerender props') evs) ->
  expected_calls (page_card_props p) evs = [].
Proof.
  induction evs as [| ev evs IH]; intros Hno; [reflexivity |].
  cbn [expected_calls].
  assert (Hrest : forall props', ~ In (Rerender props') evs).
  { intros props' Hin. apply (Hno props'). right. exact Hin. }
  destruct ev as [| | | props' |]; cbn [props_after notified];
    try (cbn; apply IH; exact Hrest).
  exfalso. apply (Hno props'). left. reflexivity.
Qed.

(** X17. The page gives its cards no callbacks, so a card of the page, as
    long as it keeps the props the page gave it, never notifies anyone:
    whatever is clicked on it, quick view and like included, and whenever
    its image loads, no callback is invoked. *)
Theorem cards_of_the_page_notify_no_one :
  forall (products : list Product.t) (card : vnode) (key : Z)
         (props : ProductCardProps) (evs : list card_event),
    In card (Dom.find_all Dom.is_card (HomePage products)) ->
    card = CardElement key props ->
    (forall props', ~ In (Rerender props') evs) ->
    onQuickView props = None
    /\ onLikeToggle props = None
    /\ Card.calls (card_world (card_run evs (mount_card props))) = [].
Proof.
  intros products card key props evs Hin Hcard Hno.
  rewrite cards_of_the_page in Hin.
  assert (Hin' : In card (map card_of products)).
  { apply in_app_or in Hin. destruct Hin; assumption. }
  apply in_map_iff in Hin'. destruct Hin' as (p & Hp & _).
  rewrite Hcard in Hp. unfold card_of in Hp.
  injection Hp as _ Hprops. subst props.
  split; [reflexivity |]. split; [reflexivity |].
  rewrite card_run_calls. cbn [mount_card card_world card_props Card.calls app].
  exact (expected_calls_unwired p evs Hno).
Qed.

Lemma cards_of_the_page_notify_no_one_witness :
  In (card_of sample_product)
     (Dom.find_all Dom.is_card (HomePage [sample_product]))
  /\ Card.calls
       (card_world
          (card_run [ClickQuickView; ClickLike; ImageLoaded; UnmountCard]
             (mount_card (page_card_props sample_product))))
     = [].
Proof.
  assert (Hin : In (card_of sample_product)
                   (Dom.find_all Dom.is_card (HomePage [sample_product]))).
  { left. reflexivity. }
  split; [exact Hin |].
  refine (proj2 (proj2
    (cards_of_the_page_notify_no_one [sample_product]
       (card_of sample_product) (Product.id sample_product)
       (page_card_props sample_product)
       [ClickQuickView; ClickLike; ImageLoaded; UnmountCard]
       Hin eq_refl _))).
  intros props' [H | [H | [H | [H | []]]]]; discriminate H.
Defined.

(* ------------------------------------------------------------------ *)
(** ** The stock-dependent outputs, from the stock *)

Lemma Number_toString_safe n :
  Z.abs n < 2 ^ 53 -> Number_toString n = decimal n.
Proof.
  intros H. unfold Number_toString.
  destruct (Z.ltb_spec (Z.abs n) (2 ^ 53)) as [_ | Hge];
    [reflexivity | exfalso; apply (Z.lt_irrefl (Z.abs n)); lia].
Qed.

Lemma stock_outputs_of_flags s (lbl : string) :
  lbl = (if (s <=? 0)%Z then "Out of Stock"
         else if ((s >? 0) && (s <=? 5))%Z
         then "Only " ++ Number_toString s ++ " left"
         else Number_toString s ++ " in stock")%string ->
  lbl = label_of_stock s
  /\ (s <=? 0) = is_out (class_of_stock s)
  /\ (if s <=? 0 then "Unavailable" else "Add to Cart")
     = cart_label (class_of_stock s).
Proof.
  intros ->. unfold label_of_stock, class_of_stock. rewrite Z.gtb_ltb.
  destruct (Z.leb_spec s 0) as [H0 | H0]; [repeat split; reflexivity |].
  destruct (Z.ltb_spec 0 s) as [_ | Hn]; [| exfalso; lia].
  destruct (Z.leb_spec s 5) as [H5 | H5]; cbn [andb is_out cart_label].
  - rewrite Number_toString_safe; [repeat split; reflexivity |].
    apply Z.abs_lt. split; [lia |].
    apply (Z.le_lt_trans _ 5); [exact H5 | reflexivity].
  - destruct (Z.ltb_spec s (2 ^ 53)) as [Hs | Hs];
      [| repeat split; reflexivity].
    rewrite Number_toString_safe; [repeat split; reflexivity |].
    apply Z.abs_lt. split; [lia | exact Hs].
Qed.

(** C2. For every product and in both view modes, what the card shows of
    the stock is a function of the class of the stock: a stock [s <= 0]
    gives the label "Out of Stock" and an add-to-cart button that is
    disabled and labelled "Unavailable"; a stock [0 < s <= 5] gives the
    label "Only N left", with N the count in digits; a stock [s > 5] gives
    "N in stock"; and in the last two classes the button is enabled and
    labelled "Add to Cart". *)
Theorem stock_outputs_follow_the_class :
  forall (p : Product.t) (l : option bool) (o : option callback)
         (vm : option string) (q : option callback) (st : bool),
    let s := Product.stock p in
    let props := {| product := Some p; isLiked := l; onLikeToggle := o;
                    viewMode := vm; onQuickView := q |} in
    exists tree,
      ProductCard props st = Normal tree
      /\ text_of (Dom.stock_status tree) = Some (label_of_stock s)
      /\ disabled_of (Dom.add_to_cart tree)
         = Some (is_out (class_of_stock s))
      /\ text_of (Dom.add_to_cart tree)
         = Some (cart_label (class_of_stock s)).
Proof.
  intros p l o vm q st s props.
  rewrite (ProductCard_present props p st eq_refl).
  unfold list_branch, grid_branch.
  destruct (default_to (viewMode props) "grid" =? "list")%string;
    eexists; (split; [reflexivity |]).
  - destruct (add_to_cart_list p (default_to (isLiked props) false)
                (onLikeToggle props) st (isOutOfStock p) (isLowStock p)
                (HandleQuickView (onQuickView props) (Product.id p)))
      as [Hd Ht].
    rewrite Hd, Ht, stock_status_list.
    unfold isOutOfStock, isLowStock. fold s.
    destruct (stock_outputs_of_flags s _ eq_refl) as (Hl & Ho & Hc).
    unfold text_of, option_map, Dom.textContent, map, String.concat.
    rewrite <- Hl, <- Ho, <- Hc. repeat split; reflexivity.
  - destruct (add_to_cart_grid p (default_to (isLiked props) false)
                (onLikeToggle props) st (isOutOfStock p) (isLowStock p)
                (HandleQuickView (onQuickView props) (Product.id p)))
      as [Hd Ht].
    rewrite Hd, Ht, stock_status_grid.
    unfold isOutOfStock, isLowStock. fold s.
    destruct (stock_outputs_of_flags s _ eq_refl) as (Hl & Ho & Hc).
    unfold text_of, option_map, Dom.textContent, map, String.concat.
    rewrite <- Hl, <- Ho, <- Hc. repeat split; reflexivity.
Qed.

(** The stock at the edges of the classes and beyond the digits a number
    keeps, in the grid and in the list: what the label and the button
    read. *)
Example stock_outputs_at_the_edges :
  Forall (fun vm =>
    map (fun s =>
           match ProductCard
                   (sample_props
                      (Some {| Product.id := 1; Product.name := "A";
                               Product.category := None;
                               Product.description := "";
                               Product.price := 1000; Product.stock := s;
                               Product.imageUrl := "/a.png";
                               Product.createdAt := DateString "";
                               Product.updatedAt := DateString "" |})
                      vm None) true with
           | Normal tree =>
               (text_of (Dom.stock_status tree),
                disabled_of (Dom.add_to_cart tree),
                text_of (Dom.add_to_cart tree))
           | Throw _ => (None, None, None)
           end)
        [0; 1; 3; 5; 6; 10 ^ 21]
    = [(Some "Out of Stock", Some true, Some "Unavailable");
       (Some "Only 1 left", Some false, Some "Add to Cart");
       (Some "Only 3 left", Some false, Some "Add to Cart");
       (Some "Only 5 left", Some false, Some "Add to Cart");
       (Some "6 in stock", Some false, Some "Add to Cart");
       (Some "1e+21 in stock", Some false, Some "Add to Cart")])
    [None; Some "grid"; Some "list"].
Proof. repeat constructor. Qed.

(* ------------------------------------------------------------------ *)
(** ** The image-loading state of a card *)

Lemma card_step_state ev c :
  Card.imageLoading (card_world (card_step ev c))
  = loading_after (card_props c) (Card.mounted (card_world c))
      (Card.imageLoading (card_world c)) ev
  /\ Card.mounted (card_world (card_step ev c))
     = mounted_after (Card.mounted (card_world c)) ev
  /\ card_props (card_step ev c) = props_after (card_props c) ev.
Proof.
  unfold loading_after, signal_reaches.
  destruct (product (card_props c)) as [p |] eqn:Hp.
  - destruct ev; cbn [card_step props_after mounted_after].
    + rewrite (dispatch_present _ _ c p
                 (HandleQuickView (onQuickView (card_props c)) (Product.id p)) Hp)
        by (intros tree Hr; exact (quick_view_handler _ p _ tree Hp Hr)).
      cbn [card_world card_props fire].
      rewrite handleQuickView_run. repeat split; reflexivity.
    + rewrite (dispatch_present _ _ c p
                 (PropCallback (onLikeToggle (card_props c))) Hp)
        by (intros tree Hr; exact (like_handler _ p _ tree Hp Hr)).
      cbn [card_world card_props].
      destruct (onLikeToggle (card_props c)); repeat split; reflexivity.
    + rewrite (dispatch_present _ _ c p SetImageLoadingFalse Hp)
        by (intros tree Hr; exact (image_handler _ p _ tree Hp Hr)).
      cbn. destruct (Card.mounted (card_world c)); repeat split; reflexivity.
    + repeat split; reflexivity.
    + repeat split; reflexivity.
  - destruct ev; cbn [card_step props_after mounted_after];
      rewrite ?(dispatch_absent _ _ c Hp eq_refl);
      repeat split; reflexivity.
Qed.

Lemma history_is_expected evs :
  forall c,
    imageLoading_history evs c
    = expected_loading (card_props c) (Card.mounted (card_world c))
        (Card.imageLoading (card_world c)) evs.
Proof.
  induction evs as [| ev evs IH]; intros c; [reflexivity |].
  cbn [imageLoading_history expected_loading]. rewrite IH.
  destruct (card_step_state ev c) as (Hl & Hm & Hp).
  rewrite Hl, Hm, Hp. reflexivity.
Qed.

Lemma run_loading evs :
  forall c,
    Card.imageLoading (card_world (card_run evs c))
    = Card.imageLoading (card_world c)
      && negb (load_signal_arrives (card_props c)
                 (Card.mounted (card_world c)) evs).
Proof.
  induction evs as [| ev evs IH]; intros c.
  - cbn. rewrite andb_true_r. reflexivity.
  - change (card_run (ev :: evs) c) with (card_run evs (card_step ev c)).
    rewrite IH. destruct (card_step_state ev c) as (Hl & Hm & Hp).
    rewrite Hl, Hm, Hp. cbn [load_signal_arrives]. unfold loading_after.
    destruct (signal_reaches (card_props c) (Card.mounted (card_world c)) ev);
      [rewrite andb_false_r |]; reflexivity.
Qed.

(** The expected values go one way: never from [false] to [true], and from
    [true] to [false] once, where the signal arrives. *)
Lemma expected_one_way evs :
  forall props m l,
    let h := expected_loading props m l evs in
    transitions false true h = 0%nat
    /\ transitions true false h
       = (if l && load_signal_arrives props m evs then 1 else 0)%nat
    /\ exists k n,
        h = repeat true k ++ repeat false n
        /\ (l = true -> exists k', k = S k').
Proof.
  induction evs as [| ev evs IH]; intros props m l.
  - cbn. rewrite andb_false_r. split; [reflexivity |]. split; [reflexivity |].
    destruct l.
    + exists 1%nat, 0%nat. split; [reflexivity |]. intros _. exists 0%nat.
      reflexivity.
    + exists 0%nat, 1%nat. split; [reflexivity | discriminate].
  - cbv zeta. cbn [expected_loading load_signal_arrives].
    destruct (IH (props_after props ev) (mounted_after m ev)
                 (loading_after props m l ev))
      as (Hft & Htf & k & n & Hshape & Hk).
    cbv zeta in Hft, Htf, Hshape.
    remember (expected_loading (props_after props ev) (mounted_after m ev)
                (loading_after props m l ev) evs) as rest eqn:Erest.
    assert (Hhead : exists tl, rest = loading_after props m l ev :: tl).
    { rewrite Erest. destruct evs; eexists; reflexivity. }
    clear Erest.
    destruct Hhead as [tl Hhead].
    cbn [transitions]. rewrite Hft, Htf.
    split; [| split].
    + rewrite Hhead. unfold loading_after.
      destruct (signal_reaches props m ev), l; reflexivity.
    + rewrite Hhead. unfold loading_after.
      destruct (signal_reaches props m ev), l; reflexivity.
    + destruct l.
      * exists (S k), n. rewrite Hshape. split; [reflexivity |].
        intros _. exists k. reflexivity.
      * assert (Hfalse : loading_after props m false ev = false).
        { unfold loading_after. destruct (signal_reaches props m ev);
            reflexivity. }
        rewrite Hfalse in Hhead. rewrite Hshape in Hhead.
        destruct k as [| k]; [| cbn in Hhead; discriminate].
        exists 0%nat, (S n). rewrite Hshape.
        split; [reflexivity | discriminate].
Qed.

(** C8. [imageLoading] is [true] when the card mounts. The one event that
    changes it is the completion signal of the image reaching the card,
    which sets it to [false]; every other event leaves it as it was. So
    along the life of one mount it stays [true] until the signal arrives,
    goes from [true] to [false] exactly once if the signal arrives and not
    at all otherwise, and never goes from [false] back to [true]: its values
    are a run of [true] followed by a run of [false]. *)
Theorem imageLoading_goes_one_way :
  forall (props : ProductCardProps) (evs : list card_event)
         (c : CardInstance) (ev : card_event),
    let h := imageLoading_history evs (mount_card props) in
    let final :=
      Card.imageLoading (card_world (card_run evs (mount_card props))) in
    Card.imageLoading (card_world (mount_card props)) = true
    /\ Card.imageLoading (card_world (card_step ev c))
       = loading_after (card_props c) (Card.mounted (card_world c))
           (Card.imageLoading (card_world c)) ev
    /\ h = expected_loading props true true evs
    /\ final = negb (load_signal_arrives props true evs)
    /\ transitions true false h
       = (if load_signal_arrives props true evs then 1 else 0)%nat
    /\ transitions false true h = 0%nat
    /\ (exists k m, h = repeat true (S k) ++ repeat false m).
Proof.
  intros props evs c ev h final.
  split; [reflexivity |].
  split; [exact (proj1 (card_step_state ev c)) |].
  assert (Hh : h = expected_loading props true true evs).
  { subst h. rewrite history_is_expected. reflexivity. }
  split; [exact Hh |].
  split; [subst final; rewrite run_loading; reflexivity |].
  destruct (expected_one_way evs props true true)
    as (Hft & Htf & k & m & Hshape & Hk).
  cbv zeta in Hft, Htf, Hshape. rewrite <- Hh in Hft, Htf, Hshape.
  split; [exact Htf |]. split; [exact Hft |].
  destruct (Hk eq_refl) as [k' ->]. exists k', m. exact Hshape.
Qed.

Example image_loads_once :
  imageLoading_history
    [ClickQuickView; ImageLoaded; ClickLike;
     Rerender (sample_props (Some sample_product) (Some "list") None);
     ImageLoaded]
    (mount_card (sample_props (Some sample_product) None None))
  = [true; true; false; false; false; false].
Proof. reflexivity. Qed.

(** Clicks and re-renders leave the card loading; so does a signal that
    comes after the unmount. *)
Example image_stays_loading_without_the_signal :
  imageLoading_history
    [ClickLike; ClickQuickView;
     Rerender (sample_props (Some sample_product) (Some "list") None);
     ClickLike; UnmountCard; ImageLoaded]
    (mount_card (sample_props (Some sample_product) None None))
  = [true; true; true; true; true; true; true].
Proof. reflexivity. Qed.

(* ------------------------------------------------------------------ *)
(** ** Transitions that complete after an unmount *)

(** C9, as amended. The code has no cancellation. Unmounting the page
    leaves the request pending, and when the request settles
    [fetchFeaturedProducts] runs as it does on a mounted page, with the same
    outcome and the same console output. After a success it calls
    [setProducts] with the fetched data: a state write that targets the
    unmounted page, which the runtime drops, so that the catalog stays as
    it was. After a non-success status it logs its diagnostic and writes
    no state. In the same way the [onLoad] closure of a card calls
    [setImageLoading(false)] whenever it runs, also on an unmounted card,
    where the write is dropped. *)
Theorem settled_fetch_writes_to_an_unmounted_page :
  forall (fetch fetch' : string -> settled Response) (res res' : Response)
         (data : catalog),
    fetch "/api/product" = Fulfilled res ->
    ok res = true ->
    json res = Fulfilled data ->
    fetch' "/api/product" = Fulfilled res' ->
    ok res' = false ->
    (forall f pg, pending (page_step f UnmountPage pg) = pending pg)
    /\ (let pg := page_run fetch [UnmountPage; FetchSettles] mount_page in
        Page.mounted (page_world pg) = false
        /\ Page.staleWrites (page_world pg) = 1%nat
        /\ Page.products (page_world pg) = []
        /\ Page.console (page_world pg) = []
        /\ unhandled pg = []
        /\ pending pg = false)
    /\ (forall w,
          let mounted_run := fetchFeaturedProducts fetch w in
          let unmounted_run := fetchFeaturedProducts fetch (Page.unmount w) in
          fst unmounted_run = fst mounted_run
          /\ Page.console (snd unmounted_run) = Page.console (snd mounted_run)
          /\ Page.staleWrites (snd unmounted_run) = S (Page.staleWrites w)
          /\ Page.products (snd unmounted_run) = Page.products w)
    /\ (let pg := page_run fetch' [UnmountPage; FetchSettles] mount_page in
        Page.mounted (page_world pg) = false
        /\ Page.staleWrites (page_world pg) = 0%nat
        /\ Page.products (page_world pg) = []
        /\ Page.console (page_world pg) = ["Product fetch error"]
        /\ unhandled pg = []
        /\ pending pg = false)
    /\ (forall w,
          let mounted_run := fetchFeaturedProducts fetch' w in
          let unmounted_run := fetchFeaturedProducts fetch' (Page.unmount w) in
          fst unmounted_run = fst mounted_run
          /\ Page.console (snd unmounted_run) = Page.console (snd mounted_run)
          /\ Page.staleWrites (snd unmounted_run) = Page.staleWrites w
          /\ Page.products (snd unmounted_run) = Page.products w)
    /\ (forall cw,
          let cw' := snd (fire SetImageLoadingFalse (Card.unmount cw)) in
          Card.staleWrites cw' = S (Card.staleWrites cw)
          /\ Card.imageLoading cw' = Card.imageLoading cw).
Proof.
  intros fetch fetch' res res' data Hf Hok Hj Hf' Hok'.
  split; [intros f pg; reflexivity |].
  split.
  { cbn. rewrite (fetch_ok fetch res data _ Hf Hok Hj). cbn.
    repeat split; reflexivity. }
  split.
  { intros w. cbv zeta.
    rewrite !(fetch_ok fetch res data _ Hf Hok Hj). cbn.
    destruct (Page.mounted w); repeat split; reflexivity. }
  split.
  { cbn. rewrite (fetch_not_ok fetch' res' _ Hf' Hok'). cbn.
    repeat split; reflexivity. }
  split.
  { intros w. cbv zeta.
    rewrite !(fetch_not_ok fetch' res' _ Hf' Hok'). cbn.
    repeat split; reflexivity. }
  intros cw. cbn. split; reflexivity.
Qed.

Lemma settled_fetch_writes_to_an_unmounted_page_witness :
  succeeding_fetch "/api/product"
  = Fulfilled {| ok := true;
                 json := Fulfilled (ProductArray [sample_product]) |}
  /\ failing_fetch "/api/product"
     = Fulfilled {| ok := false;
                    json := Rejected "Unexpected end of JSON input" |}
  /\ Page.staleWrites
       (page_world (page_run succeeding_fetch [UnmountPage; FetchSettles]
                      mount_page))
     = 1%nat
  /\ Page.console
       (page_world (page_run failing_fetch [UnmountPage; FetchSettles]
                      mount_page))
     = ["Product fetch error"].
Proof.
  pose proof (settled_fetch_writes_to_an_unmounted_page
                succeeding_fetch failing_fetch
                {| ok := true;
                   json := Fulfilled (ProductArray [sample_product]) |}
                {| ok := false;
                   json := Rejected "Unexpected end of JSON input" |}
                (ProductArray [sample_product])
                eq_refl eq_refl eq_refl eq_refl eq_refl)
    as (_ & Hs & _ & Hn & _).
  split; [reflexivity |]. split; [reflexivity |].
  split.
  - exact (proj1 (proj2 Hs)).
  - exact (proj1 (proj2 (proj2 (proj2 Hn)))).
Defined.

(** C9 as it is stated fails on the page: it mounts, unmounts while the
    request is pending, and the request then succeeds; [setProducts] is
    called on the unmounted page: one state write targets a component that
    is no longer mounted. The runtime drops it, and the catalog is still
    empty. *)
Lemma unmounted_page_receives_a_state_write :
  let pg := page_run succeeding_fetch [UnmountPage; FetchSettles] mount_page in
  Page.mounted (page_world pg) = false
  /\ Page.staleWrites (page_world pg) = 1%nat
  /\ Page.staleWrites (page_world pg) <> 0%nat
  /\ Page.products (page_world pg) = []
  /\ Page.staleWrites
       (page_world (page_step succeeding_fetch UnmountPage mount_page))
     = 0%nat.
Proof.
  cbv zeta. repeat split; try reflexivity. cbn. discriminate.
Qed.

(* ------------------------------------------------------------------ *)
(** ** Where the links lead *)





(** The id 10^21, of which a number keeps no more than its leading digit,
    leads to [/shop/product/1e+21]. *)
Example link_of_a_large_id :
  detail_path (10 ^ 21) = "/shop/product/1e+21"
  /\ detail_path (2 ^ 63) = "/shop/product/9223372036854776000".
Proof. split; vm_compute; reflexivity. Qed.

(* ------------------------------------------------------------------ *)
(** ** The catalog request: an ok response whose body parses *)

(** X12. When the request resolves with an ok status and a body that
    parses to an array of products, [fetchFeaturedProducts] completes
    normally, logs nothing and hands the array to [setProducts]: on a
    mounted page the array replaces [products] wholesale, whatever it held;
    on an unmounted page the write is dropped. On the page, once the
    request has settled both sections list the fetched products in the
    order received, nothing is logged or left unhandled, and a further
    settle event changes nothing. *)
Theorem successful_fetch_replaces_the_catalog :
  forall (fetch : string -> settled Response) (res : Response)
         (items : list Product.t),
    fetch "/api/product" = Fulfilled res ->
    ok res = true ->
    json res = Fulfilled (ProductArray items) ->
    (forall w,
        fst (fetchFeaturedProducts fetch w) = Normal tt
        /\ Page.console (snd (fetchFeaturedProducts fetch w))
           = Page.console w
        /\ Page.products (snd (fetchFeaturedProducts fetch w))
           = (if Page.mounted w then ProductArray items
              else Page.products w)
        /\ Page.staleWrites (snd (fetchFeaturedProducts fetch w))
           = (if Page.mounted w then Page.staleWrites w
              else S (Page.staleWrites w)))
    /\ let pg := page_step fetch FetchSettles mount_page in
       Page.products (page_world pg) = items
       /\ HomePage_render (Page.products (page_world pg))
          = Normal (HomePage items)
       /\ featured_section (page_render pg) = map card_of items
       /\ all_products_section (page_render pg) = map card_of items
       /\ Page.console (page_world pg) = []
       /\ unhandled pg = []
       /\ Page.staleWrites (page_world pg) = 0%nat
       /\ page_step fetch FetchSettles pg = pg.
Proof.
  intros fetch res items Hf Hok Hj.
  split.
  - intros w. rewrite (fetch_ok fetch res _ w Hf Hok Hj).
    destruct (Page.mounted w); repeat split; reflexivity.
  - cbn. rewrite (fetch_ok fetch res _ _ Hf Hok Hj). cbn.
    repeat split; reflexivity.
Qed.

Lemma successful_fetch_replaces_the_catalog_witness :
  succeeding_fetch "/api/product"
  = Fulfilled {| ok := true;
                 json := Fulfilled (ProductArray [sample_product]) |}
  /\ Page.products
       (page_world (page_step succeeding_fetch FetchSettles mount_page))
     = [sample_product].
Proof.
  split; [reflexivity |].
  exact (proj1 (proj2
    (successful_fetch_replaces_the_catalog succeeding_fetch
       {| ok := true; json := Fulfilled (ProductArray [sample_product]) |}
       [sample_product] eq_refl eq_refl eq_refl))).
Defined.

(** X18. The parsed body is stored unchecked. When an ok response's body
    parses to something that is not an array, [fetchFeaturedProducts] still
    completes normally and logs nothing, the mounted page's [products]
    holds that value, and the next render of the page throws a TypeError
    at [products.map]; no rejection is left unhandled. *)
Theorem non_array_body_is_stored_and_breaks_the_render :
  forall (fetch : string -> settled Response) (res : Response),
    fetch "/api/product" = Fulfilled res ->
    ok res = true ->
    json res = Fulfilled NonArray ->
    let pg := page_step fetch FetchSettles mount_page in
    fst (fetchFeaturedProducts fetch (page_world mount_page)) = Normal tt
    /\ Page.products (page_world pg) = NonArray
    /\ HomePage_render (Page.products (page_world pg)) = Throw "TypeError"
    /\ Page.console (page_world pg) = []
    /\ unhandled pg = []
    /\ Page.staleWrites (page_world pg) = 0%nat.
Proof.
  intros fetch res Hf Hok Hj.
  cbn. rewrite (fetch_ok fetch res _ _ Hf Hok Hj). cbn.
  repeat split; reflexivity.
Qed.

Lemma non_array_body_is_stored_and_breaks_the_render_witness :
  misshapen_fetch "/api/product"
  = Fulfilled {| ok := true; json := Fulfilled NonArray |}
  /\ HomePage_render
       (Page.products
          (page_world (page_step misshapen_fetch FetchSettles mount_page)))
     = Throw "TypeError".
Proof.
  split; [reflexivity |].
  exact (proj1 (proj2 (proj2
    (non_array_body_is_stored_and_breaks_the_render misshapen_fetch
       {| ok := true; json := Fulfilled NonArray |}
       eq_refl eq_refl eq_refl)))).
Defined.

(* ------------------------------------------------------------------ *)
(** ** The life of the page *)

Lemma page_outcome_step fetch ev pg :
  page_outcome fetch pg -> page_outcome fetch (page_step fetch ev pg).
Proof.
  unfold page_outcome. destruct ev; cbn [page_step].
  - destruct (pending pg) eqn:Hpend; [| rewrite Hpend; exact (fun H => H)].
    intros (Hp & Hc & Hu & Hs).
    destruct (fetch catalog_url) as [res | reason] eqn:Hf.
    + destruct (ok res) eqn:Hok.
      * destruct (json res) as [data | reason] eqn:Hj.
        -- rewrite (fetch_ok fetch res data _ Hf Hok Hj). cbn.
           left. exists res, data.
           destruct (Page.mounted (page_world pg)) eqn:Hm; cbn;
             rewrite ?Hc, ?Hu, ?Hs, ?Hp, ?Hm;
             (repeat split; try assumption; try reflexivity).
           ++ left. split; reflexivity.
           ++ right. repeat split; reflexivity.
        -- assert (Hfail : fetch_fails fetch reason).
           { right. exists res. repeat split; assumption. }
           rewrite (fetch_rejected fetch reason _ Hfail). cbn.
           right. right. exists reason. rewrite Hu.
           repeat split; assumption.
      * rewrite (fetch_not_ok fetch res _ Hf Hok). cbn.
        right. left. exists res. rewrite Hc.
        repeat split; assumption.
    + assert (Hfail : fetch_fails fetch reason) by (left; exact Hf).
      rewrite (fetch_rejected fetch reason _ Hfail). cbn.
      right. right. exists reason. rewrite Hu.
      repeat split; assumption.
  - destruct (pending pg); cbn; [exact (fun H => H) |].
    intros [(res & data & Hf & Hok & Hj & Hc & Hu & Hw) | H];
      [| right; exact H].
    left. exists res, data. repeat split; try assumption.
    destruct Hw as [Hw | (_ & Hp & Hs)]; [left; exact Hw |].
    right. repeat split; assumption.
Qed.

(** X14. At every moment of its life the page is in one of four
    situations: still waiting, with an empty catalog and nothing logged; or
    settled on an ok response whose body parsed, with nothing logged and
    the parsed body in the state as it is, unless the page had been
    unmounted before, in which case the one write was dropped and the
    catalog is still empty; or settled on a non-success status, with an
    empty catalog and the one console line; or settled on a failed request
    or an unparsable body, with an empty catalog and the one dropped
    rejection. The catalog is never partially filled, and there is at most
    one state write to an unmounted page. *)
Theorem page_is_empty_or_holds_the_fetched_data :
  forall (fetch : string -> settled Response) (evs : list page_event),
    page_outcome fetch (page_run fetch evs mount_page).
Proof.
  intros fetch evs.
  assert (H : forall pg, page_outcome fetch pg ->
                         page_outcome fetch (page_run fetch evs pg)).
  { induction evs as [| ev evs IH]; intros pg Hpg; [exact Hpg |].
    apply (IH (page_step fetch ev pg)), page_outcome_step, Hpg. }
  apply H. cbn. repeat split; reflexivity.
Qed.
